(** * Vessel / personnel lookup: exact filter, fuzzy fallback, report

    A shallow embedding of [get_vessel_personnel_info] (src/tools.ts) and of
    its [fleetVesselLookup] twins, whose bodies differ from it only in the
    page size of the exact search.

    Conventions of the embedding.
    - A JavaScript string is a [string]; one character of the model is one
      UTF-16 code unit below 256.
    - A JavaScript number that the code handles is an integer, kept as a [Z].
      Its decimal text is exact up to [Number.MAX_SAFE_INTEGER]; beyond it the
      text is what the double rounding of the platform prints, which the
      development takes as a section variable and never inspects.
    - The search service is outside the repository: it is a function from a
      request to a reply, and every request that is issued is logged. *)

From Stdlib Require Import ZArith List String Ascii Bool Lia DecimalString.
From Stdlib Require Import DecimalPos DecimalZ.
Import ListNotations.
Open Scope string_scope.
Set Warnings "-register-all".

(* ================================================================== *)
(** ** The JavaScript values and built-ins that the tool relies on *)

Module Js.

(** The values that JSON arguments and index documents are made of.  Of
    a plain object only its being one is kept: it is truthy and prints as
    [[object Object]]. *)
Inductive value : Type :=
| VUndefined
| VNull
| VBool (b : bool)
| VNum (n : Z)
| VStr (s : string)
| VArr (l : list value)
| VObj.

(** [if (value)] *)
Definition truthy (v : value) : bool :=
  match v with
  | VUndefined | VNull => false
  | VBool b => b
  | VNum n => negb (n =? 0)%Z
  | VStr s => negb (s =? "")
  | VArr _ | VObj => true
  end.

(** [parts.join(sep)] on an array of strings. *)
Fixpoint join (sep : string) (parts : list string) : string :=
  match parts with
  | [] => ""
  | [p] => p
  | p :: rest => p ++ sep ++ join sep rest
  end.

(** [fields.includes(f)] *)
Definition includes (fields : list string) (f : string) : bool :=
  existsb (String.eqb f) fields.

(** Insertion into a [Set<string>]: the first insertion fixes the place. *)
Definition setAdd (s : list string) (f : string) : list string :=
  if includes s f then s else s ++ [f].

Definition code (c : ascii) : nat := nat_of_ascii c.

Definition between (lo hi n : nat) : bool := (lo <=? n)%nat && (n <=? hi)%nat.

(** [/[A-Z]/] *)
Definition isUpperAZ (c : ascii) : bool := between 65 90 (code c).

Definition isDigit (c : ascii) : bool := between 48 57 (code c).

(** White space skipped by [parseInt]: TAB, LF, VT, FF, CR, SP and NBSP. *)
Definition isWhiteSpace (c : ascii) : bool :=
  between 9 13 (code c) || (code c =? 32)%nat || (code c =? 160)%nat.

(** [c.toLowerCase()] on one code unit: A-Z and the Latin-1 capitals. *)
Definition lowerChar (c : ascii) : ascii :=
  let n := code c in
  if between 65 90 n || (between 192 222 n && negb (n =? 215)%nat)
  then ascii_of_nat (n + 32) else c.

(** [c.toUpperCase()] on one code unit.  The three code units whose capital
    lies outside the 8-bit alphabet (181, 223, 255) are left as they are. *)
Definition upperChar (c : ascii) : ascii :=
  let n := code c in
  if between 97 122 n || (between 224 254 n && negb (n =? 247)%nat)
  then ascii_of_nat (n - 32) else c.

Fixpoint toLowerCase (s : string) : string :=
  match s with
  | EmptyString => EmptyString
  | String c r => String (lowerChar c) (toLowerCase r)
  end.

(** *** [parseInt(s, 10)] *)

Fixpoint skipWhiteSpace (s : string) : string :=
  match s with
  | String c r => if isWhiteSpace c then skipWhiteSpace r else s
  | EmptyString => EmptyString
  end.

(** The value of the longest prefix of decimal digits, continuing [acc]. *)
Fixpoint digitsValue (acc : Z) (s : string) : Z :=
  match s with
  | String c r =>
      if isDigit c
      then digitsValue (10 * acc + Z.of_nat (code c - 48)) r
      else acc
  | EmptyString => acc
  end.

Definition startsWithDigit (s : string) : bool :=
  match s with
  | String c _ => isDigit c
  | EmptyString => false
  end.

Definition startsWith (c : ascii) (s : string) : bool :=
  match s with
  | String c' _ => Ascii.eqb c' c
  | EmptyString => false
  end.

Definition dropFirst (s : string) : string :=
  match s with
  | String _ r => r
  | EmptyString => EmptyString
  end.

(** [None] is [NaN].  Leading white space is skipped, one sign is read,
    and the longest run of digits is the result; with the radix given as 10
    no [0x] prefix is recognised, and what follows the digits is ignored. *)
Definition parseInt (s : string) : option Z :=
  let s1 := skipWhiteSpace s in
  let sign := if startsWith "-" s1 then (-1)%Z else 1%Z in
  let s2 :=
    if startsWith "-" s1 || startsWith "+" s1 then dropFirst s1 else s1 in
  if startsWithDigit s2 then Some (sign * digitsValue 0 s2)%Z else None.

Definition MAX_SAFE_INTEGER : Z := 9007199254740991.

Definition decimal (n : Z) : string := NilEmpty.string_of_int (Z.to_int n).

Definition natText (n : nat) : string := decimal (Z.of_nat n).

Section Text.

(** What the platform prints for an integer beyond the safe range. *)
Variable inexactText : Z -> string.

(** [`${n}`] and [String(n)] for a number. *)
Definition numberText (n : Z) : string :=
  if (Z.abs n <=? MAX_SAFE_INTEGER)%Z then decimal n else inexactText n.

(** [String(v)]; an array prints its elements joined by a bare comma, with
    [null] and [undefined] elements printed as nothing. *)
Fixpoint toText (v : value) : string :=
  match v with
  | VUndefined => "undefined"
  | VNull => "null"
  | VBool true => "true"
  | VBool false => "false"
  | VNum n => numberText n
  | VStr s => s
  | VArr l =>
      join ","
        ((fix elems (l : list value) : list string :=
            match l with
            | [] => []
            | VUndefined :: r | VNull :: r => "" :: elems r
            | x :: r => toText x :: elems r
            end) l)
  | VObj => "[object Object]"
  end.

(** The text of one element inside [Array.prototype.join]. *)
Definition elementText (v : value) : string :=
  match v with
  | VUndefined | VNull => ""
  | _ => toText v
  end.

(** [value.join(sep)] on an array value. *)
Definition joinValues (sep : string) (l : list value) : string :=
  join sep (map elementText l).

End Text.

End Js.

Import Js.

(* ================================================================== *)
(** ** Data of the tool *)

(** [GetVesselPersonnelInfoRequest] / [FleetVesselLookupRequest].  The
    arguments reach the tool through an unchecked cast, so a slot holds
    whatever JSON value the caller sent; a missing slot reads [undefined]. *)
Record request : Type := Request {
  name_query : value;
  vessel_query : value;
  email_query : value
}.

(** [config.typesense]; a port of [None] is [NaN]. *)
Record typesenseConfig : Type := TypesenseConfig {
  host : string;
  port : option Z;
  protocol : string;
  apiKey : string
}.

Record searchParameters : Type := SearchParameters {
  q : string;
  filter_by : option string;
  query_by : option string;
  per_page : Z
}.

(** A hit with its document, given by [Object.entries(hit.document)]. *)
Record hit : Type := Hit { document : list (string * value) }.

(** The result envelope; [hits] may be missing. *)
Record searchResults : Type := SearchResults {
  found : value;
  hits : option (list hit)
}.

(** What a failing search throws.  [ErrorObject] is an [instanceof Error]
    with its [message]; [errors] is [Some] when the object carries an array
    under [errors], each entry given by its [message] (empty when it has
    none) and by its [String(e)].  [NotAnError] carries [String(error)]. *)
Inductive thrown : Type :=
| ErrorObject (message : string) (errors : option (list (string * string)))
| NotAnError (text : string).

Inductive reply : Type :=
| Returns (r : searchResults)
| Throws (e : thrown).

(** What the tool does to the outside world. *)
Inductive event : Type :=
| NewClient (host : string) (port : option Z) (protocol apiKey : string)
| Search (collection : string) (p : searchParameters).

(** [CallToolResult] with its single text block. *)
Record CallToolResult : Type := TextResult { text : string }.

Definition vesselInfoFields : list string :=
  ["vesselName"; "groupName"; "shippalmDoc"; "isV3"; "class"; "imo"; "doc";
   "fleet"].

Definition emailFields : list string :=
  ["vesselEmailId"; "technicalSuperintendentEmailId";
   "procurementExecEmailId"; "marineSuperintendentEmailId"; "vgEmailId";
   "technicalExecutiveEmailId"; "dcoExecEmailId"; "pmsExecEmailId";
   "accountsPicEmailId"; "backupTechSuperintendentEmailId";
   "cmsSuperintendentEmailId"; "fleetManagerEmailId";
   "marineManagerEmailId"; "itPicEmailId"; "manningGroupHeadEmailId";
   "marineExecEmailId"].

Definition personNameFields : list string :=
  ["technicalSuperintendent"; "procurementExec"; "owner";
   "marineSuperintendent"; "technicalExecutive"; "dcoExec"; "pmsExec";
   "fleetManager"; "accountsPic"; "backupTechSuperintendent";
   "cmsSuperintendent"; "itPic"; "manningGroupHead"; "marineExec";
   "marineManager"].

Definition numericFields : list string := ["imo"].
Definition boolFields : list string := ["isV3"].

(** Line feed. *)
Definition nl : string := String (ascii_of_nat 10) EmptyString.

(** Back-tick, the quote of a string operand in a filter. *)
Definition bq : string := String (ascii_of_nat 96) EmptyString.

(* ------------------------------------------------------------------ *)
(** *** Active queries *)

Definition providedQueries (args : request) : list (string * value) :=
  [("name", name_query args); ("vessel", vessel_query args);
   ("email", email_query args)].

(** [value !== undefined && value !== null] *)
Definition provided (v : value) : bool :=
  match v with
  | VUndefined | VNull => false
  | _ => true
  end.

Definition activeQueries (args : request) : list (string * value) :=
  filter (fun kv => provided (snd kv)) (providedQueries args).

(** [activeQueries.name], [.vessel], [.email]: [undefined] when missing. *)
Fixpoint property (o : list (string * value)) (key : string) : value :=
  match o with
  | [] => VUndefined
  | (k, v) :: rest => if k =? key then v else property rest key
  end.

(* ------------------------------------------------------------------ *)
(** *** Report of a hit set *)

(** [key.replace(/([A-Z])/g, ' $1')] *)
Fixpoint spaceCapitals (key : string) : string :=
  match key with
  | EmptyString => EmptyString
  | String c r =>
      if isUpperAZ c
      then String " "%char (String c (spaceCapitals r))
      else String c (spaceCapitals r)
  end.

(** [.replace(/^./, (str) => str.toUpperCase())]; a leading line terminator
    is not matched by [.] and is its own capital anyway. *)
Definition upperFirst (s : string) : string :=
  match s with
  | EmptyString => EmptyString
  | String c r => String (upperChar c) r
  end.

Definition displayKey (key : string) : string :=
  upperFirst (spaceCapitals key).

(* ------------------------------------------------------------------ *)
(** *** The filter read as a formula *)

(** One equality clause of the filter grammar [field:=value]. *)
Inductive clause : Type :=
| NumEq (field : string) (n : Z)
| BoolEq (field literal : string)
| StrEq (field operand : string).



(* ------------------------------------------------------------------ *)
(** *** Decimal numerals *)


(* ------------------------------------------------------------------ *)
(** *** Sample data for the worked examples *)

Definition sampleConfig : typesenseConfig :=
  {| host := "search.example.org"; port := Some 443%Z; protocol := "https";
     apiKey := "key" |}.

Definition sampleInexactText : Z -> string := fun _ => "Infinity".

(** The same configuration without its host. *)
Definition noHostConfig : typesenseConfig :=
  {| host := ""; port := Some 443%Z; protocol := "https"; apiKey := "key" |}.

Definition noQuery : request := Request VUndefined VUndefined VUndefined.

Definition everGivenQuery : request :=
  Request VUndefined (VStr "Ever Given") VUndefined.

Definition emptyNameAndEverGiven : request :=
  Request (VStr "") (VStr "Ever Given") VUndefined.


Definition aliceOnEverGiven : request :=
  Request (VStr "Alice") (VStr "Ever Given") VUndefined.

(** A request whose only slot is a number, as an untyped caller may send
    it. *)
Definition numberAsVesselQuery : request :=
  Request VUndefined (VNum 9876543) VUndefined.

(** A service whose exact search fails on every node. *)
Definition failingSearch : searchParameters -> reply :=
  fun _ =>
    Throws (ErrorObject "all nodes failed"
              (Some [("timeout", "Error: timeout"); ("", "ECONNREFUSED")])).

(** A service without any matching document. *)
Definition noHits : searchParameters -> reply :=
  fun _ => Returns {| found := VNum 0; hits := Some [] |}.

Definition everGiven : hit :=
  {| document :=
       [("vesselName", VStr "Ever Given"); ("imo", VNum 9811000);
        ("isV3", VBool false); ("fleet", VStr "F1");
        ("owner", VArr [VStr "A Corp"; VStr "B Corp"]);
        ("technicalSuperintendent", VStr "Alice");
        ("technicalSuperintendentEmailId", VStr "")] |}.

(** A service that finds [everGiven] by exact filter only. *)
Definition exactHit : searchParameters -> reply :=
  fun p =>
    match filter_by p with
    | Some _ => Returns {| found := VNum 1; hits := Some [everGiven] |}
    | None => Returns {| found := VNum 0; hits := Some [] |}
    end.


(* ------------------------------------------------------------------ *)
(** *** A computation that logs its events and may throw *)

Definition M (A : Type) : Type := (list event * (thrown + A))%type.

Definition ret {A : Type} (a : A) : M A := ([], inr a).

Definition bind {A B : Type} (m : M A) (k : A -> M B) : M B :=
  match m with
  | (log, inl e) => (log, inl e)
  | (log, inr a) => let '(log', r) := k a in ((log ++ log')%list, r)
  end.

Definition emit (e : event) : M unit := ([e], inr tt).

(** [try { body } catch (error) { return handler(error) }] *)
Definition tryCatch {A : Type} (body : M A) (handler : thrown -> A)
  : list event * A :=
  match body with
  | (log, inl e) => (log, handler e)
  | (log, inr a) => (log, a)
  end.

Notation "x <- m ;; k" := (bind m (fun x => k))
  (at level 61, m at next level, right associativity).
Notation "' pat <- m ;; k" :=
  (bind m (fun x => match x with pat => k end))
  (at level 61, pat pattern, m at next level, right associativity).

(* ================================================================== *)
(** ** Text helpers of the messaging tools *)

(* ------------------------------------------------------------------ *)
(** *** [sanitizeWhatsAppText] *)

(** What follows the first [>] of [s], if there is one. *)
Fixpoint afterCloser (s : string) : option string :=
  match s with
  | EmptyString => None
  | String c r => if Ascii.eqb c ">" then Some r else afterCloser r
  end.

(** For [r] that follows a [<]: the pattern [<[^>]+>] matches there when
    [r] starts with a character other than [>] and has a [>] further on;
    the match ends at the nearest one.  The result is what follows the
    match. *)
Definition afterTag (r : string) : option string :=
  match r with
  | EmptyString => None
  | String c r' => if Ascii.eqb c ">" then None else afterCloser r'
  end.

(** [text.replace(/<[^>]+>/g, '')]: the matches are found from left to
    right, each search resuming after the previous match.  [fuel] bounds
    the number of characters still to read. *)
Fixpoint stripTagsWith (fuel : nat) (s : string) : string :=
  match fuel with
  | O => EmptyString
  | S fuel =>
      match s with
      | EmptyString => EmptyString
      | String c r =>
          if Ascii.eqb c "<" then
            match afterTag r with
            | Some rest => stripTagsWith fuel rest
            | None => String c (stripTagsWith fuel r)
            end
          else String c (stripTagsWith fuel r)
      end
  end.

Definition stripTags (s : string) : string :=
  stripTagsWith (String.length s) s.

Definition startsWithWhiteSpace (s : string) : bool :=
  match s with
  | String c _ => isWhiteSpace c
  | EmptyString => false
  end.

(** [clean.replace(/\s{2,}/g, ' ')]: a maximal run of two or more white
    space characters becomes one space.  [inRun] tells that the character
    read belongs to a run that has been replaced already. *)
Fixpoint collapseFrom (inRun : bool) (s : string) : string :=
  match s with
  | EmptyString => EmptyString
  | String c r =>
      if isWhiteSpace c then
        if inRun then collapseFrom true r
        else if startsWithWhiteSpace r
             then String " " (collapseFrom true r)
             else String c (collapseFrom false r)
      else String c (collapseFrom false r)
  end.

Definition collapseSpaces (s : string) : string := collapseFrom false s.

Definition isBreak (c : ascii) : bool :=
  (code c =? 10)%nat || (code c =? 9)%nat.

(** [clean.replace(/[\n\t]/g, ' ')] *)
Fixpoint spacesForBreaks (s : string) : string :=
  match s with
  | EmptyString => EmptyString
  | String c r =>
      String (if isBreak c then " "%char else c) (spacesForBreaks r)
  end.

Fixpoint trimEnd (s : string) : string :=
  match s with
  | EmptyString => EmptyString
  | String c r =>
      match trimEnd r with
      | EmptyString => if isWhiteSpace c then EmptyString
                       else String c EmptyString
      | r' => String c r'
      end
  end.

(** [clean.trim()] *)
Definition trim (s : string) : string := trimEnd (skipWhiteSpace s).

Definition sanitizeWhatsAppText (text : string) : string :=
  let clean := stripTags text in
  let clean := collapseSpaces clean in
  let clean := spacesForBreaks clean in
  trim clean.

(* ------------------------------------------------------------------ *)
(** *** The path of the converted PDF *)

Fixpoint hasDot (s : string) : bool :=
  match s with
  | EmptyString => false
  | String c r => Ascii.eqb c "." || hasDot r
  end.

(** [filePath.replace(/\.[^.]+$/, '.pdf')] in [_convertTxtToPdf] and
    [_convertToPdf] of src/tools.ts: the match starts at the dot that is
    followed, up to the end, by one or more characters other than a dot. *)
Fixpoint pdfPath (filePath : string) : string :=
  match filePath with
  | EmptyString => EmptyString
  | String c r =>
      if Ascii.eqb c "." && negb (r =? "") && negb (hasDot r)
      then ".pdf"
      else String c (pdfPath r)
  end.

(** [txtPath.replace(/\.txt$/, '.pdf')] in the older [_convertTxtToPdf]. *)
Fixpoint pdfPathOfTxt (txtPath : string) : string :=
  match txtPath with
  | EmptyString => EmptyString
  | String c r =>
      if String c r =? ".txt" then ".pdf" else String c (pdfPathOfTxt r)
  end.

(** [attachmentPath.endsWith('.txt')] *)
Fixpoint endsWithTxt (s : string) : bool :=
  match s with
  | EmptyString => false
  | String c r => (String c r =? ".txt") || endsWithTxt r
  end.

(* ------------------------------------------------------------------ *)
(** *** The identifier of a table component *)

(** The longest prefix of decimal digits, and what follows it. *)
Fixpoint spanDigits (s : string) : string * string :=
  match s with
  | EmptyString => (EmptyString, EmptyString)
  | String c r =>
      if isDigit c
      then let '(d, rest) := spanDigits r in (String c d, rest)
      else (EmptyString, s)
  end.

(** [\d+] followed by [_]: the digits, and what follows the underscore. *)
Definition digitsThenUnderscore (s : string) : option (string * string) :=
  match spanDigits s with
  | (EmptyString, _) => None
  | (d, String c rest) => if Ascii.eqb c "_" then Some (d, rest) else None
  | (_, EmptyString) => None
  end.

(** [componentId.match(/^(\d+)_(\d+)_(\d+)$/)]: the three groups. *)
Definition componentIdMatch (componentId : string)
  : option (string * string * string) :=
  match digitsThenUnderscore componentId with
  | None => None
  | Some (componentNumber, s1) =>
      match digitsThenUnderscore s1 with
      | None => None
      | Some (questionNumber, s2) =>
          match spanDigits s2 with
          | (EmptyString, _) => None
          | (imo, EmptyString) => Some (componentNumber, questionNumber, imo)
          | (_, String _ _) => None
          end
      end
  end.

(** [`${componentNumber}_${questionNumber}_${imo}`], the key looked up in
    the collection. *)
Definition componentNo (groups : string * string * string) : string :=
  let '(componentNumber, questionNumber, imo) := groups in
  componentNumber ++ "_" ++ questionNumber ++ "_" ++ imo.

(* ------------------------------------------------------------------ *)
(** *** Vocabulary for the text helpers *)

Definition chars (s : string) : list ascii := list_ascii_of_string s.

(** [s] holds a match of [<[^>]+>]. *)
Definition hasTag (s : string) : Prop :=
  exists before body after,
    s = before ++ "<" ++ body ++ ">" ++ after
    /\ body <> "" /\ ~ In ">"%char (chars body).

(** [s] holds two white space characters side by side. *)
Definition hasDoubleWhiteSpace (s : string) : Prop :=
  exists before c1 c2 after,
    s = before ++ String c1 (String c2 after)
    /\ isWhiteSpace c1 = true /\ isWhiteSpace c2 = true.

Definition endsWithWhiteSpace (s : string) : Prop :=
  exists before c, s = before ++ String c "" /\ isWhiteSpace c = true.

(** No [<] of [s] opens a match of [<[^>]+>]. *)
Fixpoint tagFree (s : string) : bool :=
  match s with
  | EmptyString => true
  | String c r =>
      (if Ascii.eqb c "<"
       then match afterTag r with Some _ => false | None => true end
       else true)
      && tagFree r
  end.

Fixpoint singleSpaced (s : string) : bool :=
  match s with
  | EmptyString => true
  | String c r =>
      negb (isWhiteSpace c && startsWithWhiteSpace r) && singleSpaced r
  end.

Fixpoint breakFree (s : string) : bool :=
  match s with
  | EmptyString => true
  | String c r => negb (isBreak c) && breakFree r
  end.

(** The last character of [s] is a white space character. *)
Fixpoint lastIsWhiteSpace (s : string) : bool :=
  match s with
  | EmptyString => false
  | String c EmptyString => isWhiteSpace c
  | String _ r => lastIsWhiteSpace r
  end.

(** A text that [sanitizeWhatsAppText] has nothing to do on. *)
Definition cleanText (s : string) : Prop :=
  ~ hasTag s
  /\ ~ hasDoubleWhiteSpace s
  /\ (forall c, In c (chars s) -> isBreak c = false)
  /\ startsWithWhiteSpace s = false
  /\ ~ endsWithWhiteSpace s.

(** One character of [spacesForBreaks]. *)
Definition spaceForBreak (c : ascii) : ascii :=
  if isBreak c then " "%char else c.

(** A non-empty string of decimal digits. *)
Definition digitString (s : string) : bool :=
  negb (s =? "") && forallb isDigit (chars s).

(* ================================================================== *)
(** ** The messaging tools *)

(* ------------------------------------------------------------------ *)
(** *** Failures and logged computations *)

(** A thrown value, by what the handlers of the tools read of it:
    [String(e)], [e.message], and [JSON.stringify(e.response.data)] when
    [e.response] is set. *)
Record failure : Type := Failure {
  failureString : string;
  failureMessage : value;
  failureResponse : option string
}.

(** [new Error(message)] *)
Definition newError (message : string) : failure :=
  {| failureString :=
       if message =? "" then "Error" else "Error: " ++ message;
     failureMessage := VStr message;
     failureResponse := None |}.

(** A computation that logs events of type [E] and may throw. *)
Definition Run (E A : Type) : Type := (list E * (failure + A))%type.

Definition done {E A : Type} (a : A) : Run E A := ([], inr a).

Definition raise {E A : Type} (e : failure) : Run E A := ([], inl e).

Definition note {E : Type} (e : E) : Run E unit := ([e], inr tt).

Definition andThen {E A B : Type} (m : Run E A) (k : A -> Run E B)
  : Run E B :=
  match m with
  | (log, inl e) => (log, inl e)
  | (log, inr a) => let '(log', r) := k a in ((log ++ log')%list, r)
  end.

(** [try { body } catch (e) { handler(e) }] where the handler may throw
    in its turn. *)
Definition recover {E A : Type} (body : Run E A)
  (handler : failure -> Run E A) : Run E A :=
  match body with
  | (log, inl e) => let '(log', r) := handler e in ((log ++ log')%list, r)
  | (log, inr a) => (log, inr a)
  end.

Declare Scope run_scope.
Delimit Scope run_scope with run.
Notation "x <- m ;; k" := (andThen m (fun x => k))
  (at level 61, m at next level, right associativity) : run_scope.
Notation "' pat <- m ;; k" :=
  (andThen m (fun x => match x with pat => k end))
  (at level 61, pat pattern, m at next level, right associativity)
  : run_scope.

(** The reply of an HTTP request: a response with its status, the
    [JSON.stringify] of its data and the [id] of its data, or a thrown
    error. *)
Record responseData : Type := ResponseData {
  dataJson : string;
  dataId : value
}.

Inductive httpReply : Type :=
| Responds (status : Z) (data : responseData)
| Fails (e : failure).

(* ------------------------------------------------------------------ *)
(** *** [whatsappCommunication] of src/tools.ts *)

Module WhatsApp.

(** [WhatsAppRequest]; [None] is a field that is missing. *)
Record WhatsAppRequest : Type := Request {
  content : option string;
  recipient : option string;
  attachment_path : option string
}.

(** [config.whatsapp] *)
Record whatsappConfig : Type := Config {
  url : string;
  token : string
}.

Inductive parameter : Type :=
| TextParameter (text : string)
| MediaParameter (mediaType : string) (id : value).

Inductive component : Type :=
| Header (parameters : list parameter)
| Body (parameters : list parameter).

(** The template of the payload; [messaging_product] and [type] are the
    constants "whatsapp" and "template". *)
Record payload : Type := Payload {
  to : string;
  templateName : string;
  languageCode : string;
  components : list component
}.

Inductive event : Type :=
| CreatePdf (pdfPath : string)
| ReadFile (filePath : string)
| PdfText (pdfPath text : string)
| PostMedia (mediaUrl filePath mimeType bearer : string)
| PostMessage (messagesUrl bearer : string) (body : payload).

Record sendResult : Type := SendResult {
  status : string;
  output : string
}.

Definition supported : list string :=
  [".pdf"; ".doc"; ".docx"; ".xls"; ".xlsx"; ".ppt"; ".pptx"; ".txt";
   ".png"; ".jpg"; ".jpeg"].

(** [!s || s.trim().length === 0] *)
Definition blank (s : option string) : bool :=
  match s with
  | None => true
  | Some s => (s =? "") || (String.length (trim s) =? 0)%nat
  end.

Section Tool.

Local Open Scope run_scope.

Variable inexactText : Z -> string.
Variable config : whatsappConfig.

(** [path.extname] and [mime.lookup] ([None] is [false]). *)
Variable extname : string -> string.
Variable mimeLookup : string -> option string.

(** [fs.readFile(path, 'utf-8')], and the error of the stream that
    writes a PDF, if it has one. *)
Variable readFile : string -> failure + string.
Variable streamError : string -> option failure.

(** The two endpoints. *)
Variable postMedia : string -> string -> string -> httpReply.
Variable postMessage : string -> payload -> httpReply.

Definition configured : bool :=
  negb (url config =? "") && negb (token config =? "").

(** The promise of the two converters: the PDF at [pdfPath] receives
    [text file] for the content [file] of the source, and the promise
    resolves with [pdfPath] when the stream finishes. *)
Definition writePdf (filePath pdfPath : string) (text : string -> string)
  : Run event string :=
  _ <- note (CreatePdf pdfPath) ;;
  _ <- note (ReadFile filePath) ;;
  match readFile filePath with
  | inl err => raise err
  | inr fileContent =>
      _ <- note (PdfText pdfPath (text fileContent)) ;;
      match streamError pdfPath with
      | Some err => raise err
      | None => done pdfPath
      end
  end.

Definition _convertTxtToPdf (txtPath : string) : Run event string :=
  let pdfPath := pdfPath txtPath in
  writePdf txtPath pdfPath (fun fileContent => fileContent).

Definition _convertToPdf (filePath ext : string) : Run event string :=
  let pdfPath := pdfPath filePath in
  if (ext =? ".md") || (ext =? ".csv") || (ext =? ".rtf") then
    writePdf filePath pdfPath (fun fileContent => fileContent)
  else if ext =? ".html" then
    writePdf filePath pdfPath (fun html => stripTags html)
  else
    writePdf filePath pdfPath (fun fileContent => fileContent).

Definition _uploadMedia (filePath mimeType : string) : Run event value :=
  if negb configured then
    raise (newError "WhatsApp URL or token not configured")
  else
    let mediaUrl := url config ++ "/media" in
    _ <- note (PostMedia mediaUrl filePath mimeType (token config)) ;;
    match postMedia mediaUrl filePath mimeType with
    | Fails e => raise e
    | Responds status data =>
        if negb (status =? 200)%Z then
          raise (newError ("Media upload failed: "
                           ++ numberText inexactText status ++ " - "
                           ++ dataJson data))
        else done (dataId data)
    end.

Definition _sendTemplateMessage (recipient templateName : string)
  (params : list string) (mediaId : value) (mediaType : option string)
  : Run event sendResult :=
  let language := "en" in
  if negb configured then
    raise (newError "WhatsApp URL or token not configured")
  else
    let messagesUrl := url config ++ "/messages" in
    components <-
      (if templateName =? "send_plain_text_" then
         match params with
         | [header; body] =>
             done [Header [TextParameter header];
                   Body [TextParameter body]]
         | _ =>
             raise (newError
               "send_plain_text_ template requires exactly two parameters: header and body.")
         end
       else
         let components :=
           match mediaType with
           | Some mediaType =>
               if truthy mediaId && negb (mediaType =? "")
               then [Header [MediaParameter mediaType mediaId]]
               else []
           | None => []
           end in
         let components :=
           if (0 <? List.length params)%nat
           then (components ++ [Body (map TextParameter params)])%list
           else components in
         done components) ;;
    let payload :=
      {| to := recipient; templateName := templateName;
         languageCode := language; components := components |} in
    recover
      (_ <- note (PostMessage messagesUrl (token config) payload) ;;
       match postMessage messagesUrl payload with
       | Fails e => raise e
       | Responds status data =>
           if (status =? 200)%Z then
             done {| status := "success";
                     output := "Template '" ++ templateName
                               ++ "' sent to " ++ recipient ++ "." |}
           else
             done {| status := "failure";
                     output := "Error " ++ numberText inexactText status
                               ++ ": " ++ dataJson data |}
       end)
      (fun error =>
         let errorMessage :=
           match failureResponse error with
           | Some json => json
           | None => failureString error
           end in
         done {| status := "failure";
                 output := "Exception: " ++ errorMessage |}).

Definition whatsappCommunication (args : WhatsAppRequest)
  : Run event CallToolResult :=
  recover
    (if blank (recipient args) then
       done (TextResult "Error: WhatsApp recipient is required")
     else if blank (content args) then
       done (TextResult "Error: WhatsApp message content is required")
     else
       let recipient := match recipient args with Some s => s | None => "" end in
       let message := match content args with Some s => s | None => "" end in
       '(template, mediaId, mediaType, templateParams) <-
         (match attachment_path args with
          | Some attachmentPath =>
              if negb (attachmentPath =? "") then
                let ext := toLowerCase (extname attachmentPath) in
                attachmentPath <-
                  (if negb (includes supported ext)
                   then _convertToPdf attachmentPath ext
                   else if ext =? ".txt"
                        then _convertTxtToPdf attachmentPath
                        else done attachmentPath) ;;
                let mimeType :=
                  match mimeLookup attachmentPath with
                  | Some m => if m =? "" then "application/octet-stream"
                              else m
                  | None => "application/octet-stream"
                  end in
                mediaId <- _uploadMedia attachmentPath mimeType ;;
                let '(template, mediaType) :=
                  if prefix "image/" mimeType
                  then ("send_image_file_", "image")
                  else ("send_document_file_", "document") in
                let templateParams :=
                  if negb (message =? "") then [message] else [] in
                done (template, mediaId, Some mediaType, templateParams)
              else
                done ("send_plain_text_", VUndefined, None,
                      ["Automated response"; message])
          | None =>
              done ("send_plain_text_", VUndefined, None,
                    ["Automated response"; message])
          end) ;;
       result <- _sendTemplateMessage recipient template templateParams
                   mediaId mediaType ;;
       let status :=
         if status result =? "success" then "sent successfully"
         else "failed" in
       done (TextResult ("WhatsApp message " ++ status ++ ": "
                         ++ output result)))
    (fun e =>
       done (TextResult ("Failed to send WhatsApp message: "
                         ++ failureString e))).

End Tool.

End WhatsApp.

(** The events that reach the network. *)
Definition isRequest (e : WhatsApp.event) : bool :=
  match e with
  | WhatsApp.PostMedia _ _ _ _ | WhatsApp.PostMessage _ _ _ => true
  | _ => false
  end.

(* ------------------------------------------------------------------ *)
(** *** [mailCommunication] and [sendGmail] of src/tools.ts *)

(** [s.replace(/x/g, 'y')] for single characters [x] and [y]. *)
Fixpoint replaceChar (x y : ascii) (s : string) : string :=
  match s with
  | EmptyString => EmptyString
  | String c r =>
      String (if Ascii.eqb c x then y else c) (replaceChar x y r)
  end.

(** The double quote and the backslash. *)
Definition dq : string := String (ascii_of_nat 34) EmptyString.
Definition bs : string := String (ascii_of_nat 92) EmptyString.

Definition hexDigit (n : nat) : ascii :=
  ascii_of_nat (if (n <? 10)%nat then 48 + n else 87 + n).

(** One character inside a JSON string, as [JSON.stringify] writes it. *)
Definition jsonChar (c : ascii) : string :=
  let n := code c in
  if (n =? 8)%nat then bs ++ "b"
  else if (n =? 9)%nat then bs ++ "t"
  else if (n =? 10)%nat then bs ++ "n"
  else if (n =? 12)%nat then bs ++ "f"
  else if (n =? 13)%nat then bs ++ "r"
  else if (n =? 34)%nat then bs ++ dq
  else if (n =? 92)%nat then bs ++ bs
  else if (n <? 32)%nat
       then bs ++ "u00" ++ String (hexDigit (n / 16))
                             (String (hexDigit (n mod 16)) "")
       else String c "".

Fixpoint jsonChars (s : string) : string :=
  match s with
  | EmptyString => EmptyString
  | String c r => jsonChar c ++ jsonChars r
  end.

(** [JSON.stringify(s)] for a string. *)
Definition jsonString (s : string) : string := dq ++ jsonChars s ++ dq.

Module Mail.

(** [EmailRequest]; [None] is a field that is missing. *)
Record EmailRequest : Type := Request {
  subject : option string;
  content : option string;
  recipient : option (list string);
  cc : option (list string);
  bcc : option (list string);
  attachment_paths : option (list string)
}.

(** [config.oauth]; an expiry date of [None] is [NaN]. *)
Record oauthConfig : Type := Config {
  clientId : string;
  clientSecret : string;
  redirectUris : string;
  accessToken : string;
  refreshToken : string;
  tokenType : string;
  expiryDate : option Z
}.

Inductive event : Type :=
| NewOAuth2Client (clientId clientSecret redirectUri : string)
| SetCredentials (accessToken refreshToken tokenType : string)
    (expiryDate : option Z)
| RefreshAccessToken
| ReadAttachment (resolvedPath : string)
| Send (raw : string).

Record sendResult : Type := SendResult {
  status : string;
  output : string
}.

(** [redirectUris.split(',')[0]] *)
Fixpoint beforeComma (s : string) : string :=
  match s with
  | EmptyString => EmptyString
  | String c r => if Ascii.eqb c "," then EmptyString
                  else String c (beforeComma r)
  end.

(** [list && list.length > 0] *)
Definition present (l : option (list string)) : bool :=
  match l with
  | Some (_ :: _) => true
  | _ => false
  end.

Definition listOf (l : option (list string)) : list string :=
  match l with Some l => l | None => [] end.

(** A string inside a template literal, and as an element of [join]. *)
Definition templated (s : option string) : string :=
  match s with Some s => s | None => "undefined" end.

Definition joined (s : option string) : string :=
  match s with Some s => s | None => "" end.

(** [JSON.stringify(result)] *)
Definition stringifyResult (r : sendResult) : string :=
  "{" ++ jsonString "status" ++ ":" ++ jsonString (status r) ++ ","
  ++ jsonString "output" ++ ":" ++ jsonString (output r) ++ "}".

Section Tool.

Local Open Scope run_scope.

Variable inexactText : Z -> string.
Variable config : oauthConfig.

(** [Date.now()] at the check of the expiry date. *)
Variable now : Z.

(** The refresh of the access token: its error, if it fails. *)
Variable refreshAccessToken : option failure.

(** [Math.random().toString(36).substring(2)] *)
Variable randomSuffix : string.

(** [path.isAbsolute], [path.join(WORKSPACE_ROOT, _)], [path.basename],
    [mime.lookup] ([None] is [false]). *)
Variable isAbsolute : string -> bool.
Variable joinWorkspaceRoot : string -> string.
Variable basename : string -> string.
Variable mimeLookup : string -> option string.

(** [(await fs.readFile(path)).toString('base64')] and
    [Buffer.from(message).toString('base64')]. *)
Variable readFileBase64 : string -> failure + string.
Variable base64 : string -> string.

(** [gmail.users.messages.send]: the [id] of the response, or an error. *)
Variable gmailSend : string -> failure + value.

(** What a missing recipient list throws at [recipient.join]. *)
Variable recipientTypeError : failure.

Definition recipients (emailData : EmailRequest) : Run event string :=
  match recipient emailData with
  | Some l => done (join ", " l)
  | None => raise recipientTypeError
  end.

(** The body of the loop over the attachments: the parts of one file. *)
Definition attachmentParts (boundary filePath : string)
  : Run event (list string) :=
  let resolvedPath :=
    if isAbsolute filePath then filePath
    else joinWorkspaceRoot filePath in
  _ <- note (ReadAttachment resolvedPath) ;;
  match readFileBase64 resolvedPath with
  | inl err => raise err
  | inr fileContent =>
      let mimeType :=
        match mimeLookup filePath with
        | Some m => if m =? "" then "application/octet-stream" else m
        | None => "application/octet-stream"
        end in
      let fileName := basename filePath in
      done [""; "--" ++ boundary; "Content-Type: " ++ mimeType;
            "MIME-Version: 1.0"; "Content-Transfer-Encoding: base64";
            "Content-Disposition: attachment; filename=" ++ dq
            ++ fileName ++ dq;
            ""; fileContent]
  end.

Fixpoint attachmentsParts (boundary : string) (paths : list string)
  : Run event (list string) :=
  match paths with
  | [] => done []
  | filePath :: rest =>
      parts <- attachmentParts boundary filePath ;;
      more <- attachmentsParts boundary rest ;;
      done (parts ++ more)%list
  end.

Definition message (emailData : EmailRequest) : Run event string :=
  if present (attachment_paths emailData) then
    let boundary := "----=_Part_" ++ randomSuffix in
    to <- recipients emailData ;;
    let messageParts :=
      ["Content-Type: multipart/mixed; boundary=" ++ dq ++ boundary
       ++ dq;
       "MIME-Version: 1.0";
       "To: " ++ to] in
    let messageParts :=
      if present (cc emailData)
      then List.app messageParts
             ["Cc: " ++ join ", " (listOf (cc emailData))]
      else messageParts in
    let messageParts :=
      if present (bcc emailData)
      then List.app messageParts
             ["Bcc: " ++ join ", " (listOf (bcc emailData))]
      else messageParts in
    let messageParts :=
      List.app messageParts
        ["Subject: " ++ templated (subject emailData); "";
         "--" ++ boundary; "Content-Type: text/html; charset=utf-8";
         "MIME-Version: 1.0"; ""; joined (content emailData)] in
    files <- attachmentsParts boundary
               (listOf (attachment_paths emailData)) ;;
    let messageParts :=
      List.app messageParts
        (List.app files [""; "--" ++ boundary ++ "--"]) in
    done (join nl messageParts)
  else
    to <- recipients emailData ;;
    let messageParts :=
      ["Content-Type: text/html; charset=utf-8"; "MIME-Version: 1.0";
       "To: " ++ to; "Subject: " ++ templated (subject emailData)] in
    let messageParts :=
      if present (cc emailData)
      then List.app messageParts
             ["Cc: " ++ join ", " (listOf (cc emailData))]
      else messageParts in
    let messageParts :=
      if present (bcc emailData)
      then List.app messageParts
             ["Bcc: " ++ join ", " (listOf (bcc emailData))]
      else messageParts in
    let messageParts :=
      List.app messageParts [""; joined (content emailData)] in
    done (join nl messageParts).

(** [.toString('base64').replace(/\+/g, '-').replace(/\//g, '_')] *)
Definition encode (message : string) : string :=
  replaceChar "/" "_" (replaceChar "+" "-" (base64 message)).

Definition sendGmail (emailData : EmailRequest) : Run event sendResult :=
  recover
    (if (clientId config =? "") || (clientSecret config =? "") then
       raise (newError "OAuth credentials not configured")
     else
       _ <- note (NewOAuth2Client (clientId config) (clientSecret config)
                    (if negb (redirectUris config =? "")
                     then beforeComma (redirectUris config) else "")) ;;
       _ <- (if negb (accessToken config =? "")
                && negb (refreshToken config =? "")
             then note (SetCredentials (accessToken config)
                          (refreshToken config) (tokenType config)
                          (expiryDate config))
             else raise (newError
                    "Gmail token not found in config. Please run OAuth flow first.")) ;;
       _ <- (match expiryDate config with
             | Some expiry =>
                 if negb (expiry =? 0)%Z && (expiry <? now)%Z then
                   _ <- note RefreshAccessToken ;;
                   match refreshAccessToken with
                   | Some err => raise err
                   | None => done tt
                   end
                 else done tt
             | None => done tt
             end) ;;
       message <- message emailData ;;
       let encodedMessage := encode message in
       _ <- note (Send encodedMessage) ;;
       match gmailSend encodedMessage with
       | inl err => raise err
       | inr id =>
           done {| status := "success";
                   output := "Email sent! ID: " ++ toText inexactText id |}
       end)
    (fun error =>
       done {| status := "failure";
               output := "Failed to send email: " ++ failureString error |}).

Definition mailCommunication (args : EmailRequest)
  : Run event CallToolResult :=
  recover
    (if WhatsApp.blank (subject args) then
       done (TextResult "Error: Email subject is required")
     else if WhatsApp.blank (content args) then
       done (TextResult "Error: Email content is required")
     else if negb (present (recipient args)) then
       done (TextResult "Error: At least one recipient is required")
     else
       result <- sendGmail args ;;
       done (TextResult (stringifyResult result)))
    (fun error =>
       done (TextResult ("Error sending email: "
                         ++ toText inexactText (failureMessage error)))).

End Tool.

End Mail.

(* ------------------------------------------------------------------ *)
(** *** [getFleetDetails] and [parseDocumentLink] of src/tools.ts *)

(** A text block with its optional [title] and [format]. *)
Record textBlock : Type := TextBlock {
  blockText : string;
  blockTitle : option string;
  blockFormat : option string
}.

Definition plainBlock (text : string) : textBlock :=
  {| blockText := text; blockTitle := None; blockFormat := None |}.

(** [hay.includes(needle)] *)
Fixpoint contains (needle hay : string) : bool :=
  prefix needle hay
  || match hay with
     | EmptyString => false
     | String _ rest => contains needle rest
     end.

Module Fleet.

(** [GetFleetDetailsRequest]; [None] is a missing name. *)
Record GetFleetDetailsRequest : Type := Request {
  fleet_name : option string
}.

Record searchParameters : Type := SearchParameters {
  q : string;
  query_by : string;
  per_page : Z;
  include_fields : string;
  prefix : bool;
  num_typos : Z
}.

Inductive event : Type :=
| NewClient (host : string) (port : option Z) (protocol apiKey : string)
| Search (collection : string) (p : searchParameters).

Inductive reply : Type :=
| Returns (r : searchResults)
| Throws (e : failure).

Section Tool.

Local Open Scope run_scope.

Variable inexactText : Z -> string.
Variable config : typesenseConfig.
Variable backend : string -> searchParameters -> reply.

(** [JSON.stringify(results, null, 2)] for the object with the given
    entries. *)
Variable stringify : list (string * value) -> string.

(** The four settings of the search service are all set. *)
Definition configured : bool :=
  negb (host config =? "")
  && match port config with Some p => negb (p =? 0)%Z | None => false end
  && negb (protocol config =? "")
  && negb (apiKey config =? "").

Definition getFleetDetails (args : GetFleetDetailsRequest)
  : Run event (list textBlock) :=
  match fleet_name args with
  | None =>
      done [plainBlock
              "Error: 'fleetName' parameter is required for fleet details search"]
  | Some fleetName =>
      if fleetName =? "" then
        done [plainBlock
                "Error: 'fleetName' parameter is required for fleet details search"]
      else if negb configured then
        done [plainBlock "Error: Typesense credentials not configured."]
      else
        recover
          (let searchParameters :=
             {| q := fleetName; query_by := "name"; per_page := 1;
                include_fields := "imo,name"; prefix := false;
                num_typos := 2 |} in
           _ <- note (NewClient (host config) (port config)
                        (protocol config) (apiKey config)) ;;
           _ <- note (Search "fleet-details" searchParameters) ;;
           match backend "fleet-details" searchParameters with
           | Throws e => raise e
           | Returns raw =>
               let hits := match hits raw with Some hs => hs | None => [] end in
               match hits with
               | [] =>
                   done [plainBlock
                           ("No fleet found named '" ++ fleetName ++ "'.")]
               | first :: _ =>
                   let doc := document first in
                   let results :=
                     [("fleetName", property doc "name");
                      ("imo", property doc "imo")] in
                   done [{| blockText := stringify results;
                            blockTitle :=
                              Some ("Fleet details for '" ++ fleetName
                                    ++ "'");
                            blockFormat := Some "json" |}]
               end
           end)
          (fun error =>
             done [plainBlock
                     ("Error querying fleet details: "
                      ++ toText inexactText (failureMessage error))])
  end.

End Tool.

End Fleet.

Module Parse.

(** [ParseDocumentLinkRequest]; [None] is a missing field. *)
Record ParseDocumentLinkRequest : Type := Request {
  document_link : option string;
  parsing_instruction : option string
}.

(** One call of [parseToDocumentLink], with the link and the parsing
    instruction it is given. *)
Inductive event : Type :=
| ParseToDocumentLink (documentLink : string)
    (parsingInstruction : option string).

(** What the helper answers: the pair [success, markdown], where a
    markdown of [None] is a falsy one that is not a string, or an error. *)
Inductive reply : Type :=
| Returns (success : bool) (markdown : option string)
| Throws (e : failure).

Section Tool.

Local Open Scope run_scope.

Variable inexactText : Z -> string.
Variable parseToDocumentLink : string -> option string -> reply.

Definition parseDocumentLink (args : ParseDocumentLinkRequest)
  : Run event (list textBlock) :=
  match document_link args with
  | None => done [plainBlock "Error: document_link is required"]
  | Some documentLink =>
      if documentLink =? "" then
        done [plainBlock "Error: document_link is required"]
      else
        recover
          (_ <- note (ParseToDocumentLink documentLink
                        (parsing_instruction args)) ;;
           match parseToDocumentLink documentLink
                   (parsing_instruction args) with
           | Throws e => raise e
           | Returns success markdown =>
               let text := match markdown with Some m => m | None => "" end in
               if negb success || (text =? "") then
                 done [{| blockText := "Failed to parse document from URL: "
                                       ++ documentLink;
                          blockTitle := Some "Document Parsing Error";
                          blockFormat := None |}]
               else
                 done [{| blockText := text;
                          blockTitle := Some ("Parsed document from "
                                              ++ documentLink);
                          blockFormat := Some "markdown" |}]
           end)
          (fun error =>
             let msg :=
               if truthy (failureMessage error)
               then toText inexactText (failureMessage error)
               else failureString error in
             if contains "API_KEY is required" msg
                || contains "LLAMAINDEX_API_KEY is required" msg
             then
               done [{| blockText := "API configuration error: " ++ msg;
                        blockTitle := Some "API Configuration Error";
                        blockFormat := None |}]
             else
               done [{| blockText := "Error parsing document: " ++ msg;
                        blockTitle := Some "Document Parsing Error";
                        blockFormat := None |}])
  end.

End Tool.

End Parse.

(* ------------------------------------------------------------------ *)
(** *** Sample data for the messaging, fleet and document tools *)

Module Samples.

Definition whatsapp : WhatsApp.whatsappConfig :=
  {| WhatsApp.url := "https://wa.example.org"; WhatsApp.token := "secret" |}.

Definition noWhatsapp : WhatsApp.whatsappConfig :=
  {| WhatsApp.url := ""; WhatsApp.token := "secret" |}.

Definition extname (p : string) : string :=
  if p =? "page.HTML" then ".HTML"
  else if p =? "photo.png" then ".png" else "".

Definition mimeLookup (p : string) : option string :=
  if p =? "photo.png" then Some "image/png"
  else if p =? "page.pdf" then Some "application/pdf" else None.

Definition readFile (p : string) : failure + string :=
  if p =? "page.HTML" then inr "<p>Hello <b>crew</b></p>"
  else inl (newError "ENOENT").

Definition streamError (p : string) : option failure := None.

Definition uploaded : responseData :=
  {| dataJson := "{}"; dataId := VStr "media-1" |}.

Definition postMedia (u p m : string) : httpReply := Responds 200 uploaded.

Definition postMessage (u : string) (b : WhatsApp.payload) : httpReply :=
  Responds 200 {| dataJson := "{}"; dataId := VUndefined |}.

Definition plainMessage : WhatsApp.WhatsAppRequest :=
  {| WhatsApp.content := Some "Arrived at berth";
     WhatsApp.recipient := Some "4915100000";
     WhatsApp.attachment_path := None |}.

Definition photoMessage : WhatsApp.WhatsAppRequest :=
  {| WhatsApp.content := Some "Arrived at berth";
     WhatsApp.recipient := Some "4915100000";
     WhatsApp.attachment_path := Some "photo.png" |}.

Definition pageMessage : WhatsApp.WhatsAppRequest :=
  {| WhatsApp.content := Some "Arrived at berth";
     WhatsApp.recipient := Some "4915100000";
     WhatsApp.attachment_path := Some "page.HTML" |}.

Definition oauth : Mail.oauthConfig :=
  {| Mail.clientId := "id"; Mail.clientSecret := "secret";
     Mail.redirectUris := "http://localhost:3000,http://localhost:4000";
     Mail.accessToken := "access"; Mail.refreshToken := "refresh";
     Mail.tokenType := "Bearer"; Mail.expiryDate := None |}.

Definition mail : Mail.EmailRequest :=
  {| Mail.subject := Some "ETA";
     Mail.content := Some "<p>Arrival tomorrow</p>";
     Mail.recipient := Some ["master@example.org"];
     Mail.cc := None; Mail.bcc := Some [];
     Mail.attachment_paths := None |}.

(** A stand-in for Base64 that yields both characters to be replaced. *)
Definition base64 (message : string) : string := "QUJD+/8=".

Definition gmailSend (raw : string) : failure + value :=
  inr (VStr "18c2").

Definition typeError : failure :=
  {| failureString := "TypeError: Cannot read properties of undefined";
     failureMessage := VStr "Cannot read properties of undefined";
     failureResponse := None |}.



Definition stringify (entries : list (string * value)) : string :=
  join "," (map fst entries).



End Samples.

(* ================================================================== *)
(** ** The tool *)

Section Lookup.

(** Text of an integer beyond the safe range (see [Js.numberText]). *)
Variable inexactText : Z -> string.

(** The process-wide configuration and the search service. *)
Variable config : typesenseConfig.
Variable backend : searchParameters -> reply.

(* ------------------------------------------------------------------ *)
(** *** Phase 1: the exact filter *)

Definition searchFieldsOf (queryType : string) : list string :=
  if queryType =? "email" then emailFields
  else if queryType =? "name" then personNameFields
  else if queryType =? "vessel" then vesselInfoFields
  else [].

Definition isStringField (f : string) : bool :=
  negb (includes numericFields f) && negb (includes boolFields f).

Definition isBooleanLiteral (query : string) : bool :=
  (toLowerCase query =? "true") || (toLowerCase query =? "false").

(** The body of the loop over [Object.entries(activeQueries)], up to the
    filling of [filterParts]. *)
Definition filterParts (queryType : string) (query : value) : list string :=
  let searchFields := searchFieldsOf queryType in
  let stringFields := filter isStringField searchFields in
  match query with
  | VStr query =>
      (if negb (queryType =? "email") then
         match parseInt query with
         | Some numericQuery =>
             flat_map (fun field =>
               if includes searchFields field
               then [field ++ ":=" ++ numberText inexactText numericQuery]
               else []) numericFields
         | None => []
         end
         ++
         (if isBooleanLiteral query then
            flat_map (fun field =>
              if includes searchFields field
              then [field ++ ":=" ++ toLowerCase query]
              else []) boolFields
          else [])
       else [])
      ++ map (fun field => field ++ ":=" ++ bq ++ query ++ bq) stringFields
  | _ => []
  end.

(** One parenthesised group, pushed only when it has a clause. *)
Definition group (queryType : string) (query : value) : list string :=
  let parts := filterParts queryType query in
  if (0 <? List.length parts)%nat
  then ["(" ++ join " || " parts ++ ")"]
  else [].

Definition combinedFilterParts (active : list (string * value))
  : list string :=
  flat_map (fun kv => group (fst kv) (snd kv)) active.

Definition filterQuery (active : list (string * value)) : string :=
  join " && " (combinedFilterParts active).

Definition exactParameters (perPage : Z) (active : list (string * value))
  : searchParameters :=
  {| q := "*"; filter_by := Some (filterQuery active); query_by := None;
     per_page := perPage |}.

(* ------------------------------------------------------------------ *)
(** *** Phase 2: the fuzzy query *)

(** [Object.values(activeQueries).join(' ')] *)
Definition fuzzyQ (active : list (string * value)) : string :=
  joinValues inexactText " " (map snd active).

Definition addAll (s fields : list string) : list string :=
  fold_left setAdd fields s.

(** The [Set] after the three guarded [forEach]. *)
Definition fuzzyQueryByFields (active : list (string * value))
  : list string :=
  let s := [] in
  let s := if truthy (property active "name")
           then addAll s personNameFields else s in
  let s := if truthy (property active "vessel")
           then addAll s vesselInfoFields else s in
  let s := if truthy (property active "email")
           then addAll s emailFields else s in
  s.

Definition fuzzyStringFields (active : list (string * value))
  : list string :=
  filter isStringField (fuzzyQueryByFields active).

Definition fuzzyParameters (active : list (string * value))
  : searchParameters :=
  {| q := fuzzyQ active; filter_by := None;
     query_by := Some (join "," (fuzzyStringFields active));
     per_page := 10 |}.

(* ------------------------------------------------------------------ *)
(** *** The report *)

(** [Array.isArray(value) ? value.join(', ') : String(value)] *)
Definition displayValue (v : value) : string :=
  match v with
  | VArr l => joinValues inexactText ", " l
  | _ => toText inexactText v
  end.

(** One turn of the loop over [Object.entries(doc)]. *)
Definition addField (responseText : string) (kv : string * value)
  : string :=
  if truthy (snd kv)
  then responseText ++ displayKey (fst kv) ++ ": " ++ displayValue (snd kv)
       ++ nl
  else responseText.

(** [hits.forEach((hit, i) => ...)], starting at index [i]. *)
Fixpoint addHits (i : nat) (hs : list hit) (responseText : string)
  : string :=
  match hs with
  | [] => responseText
  | h :: rest =>
      let responseText :=
        responseText ++ "--- Result " ++ natText (i + 1) ++ " ---" ++ nl in
      let responseText := fold_left addField (document h) responseText in
      addHits (S i) rest (responseText ++ nl)
  end.

Definition responseText (searchResults : searchResults) (hs : list hit)
  : string :=
  addHits 0 hs
    ("Found " ++ toText inexactText (found searchResults)
     ++ " results. Showing top " ++ natText (List.length hs) ++ ":" ++ nl
     ++ nl).

(* ------------------------------------------------------------------ *)
(** *** The two searches and the whole call *)

Definition search (p : searchParameters) : M searchResults :=
  ([Search "fleet-vessel-lookup" p],
   match backend p with
   | Returns r => inr r
   | Throws e => inl e
   end).

(** [searchResults.hits || []] *)
Definition hitsOf (r : searchResults) : list hit :=
  match hits r with
  | Some hs => hs
  | None => []
  end.

Definition subErrorText (e : string * string) : string :=
  if negb (fst e =? "") then fst e else snd e.

(** The [catch] block. *)
Definition errorMessage (error : thrown) : string :=
  match error with
  | ErrorObject message (Some errors) =>
      "An aggregate error occurred: " ++ message
      ++ ". Individual errors: " ++ join "; " (map subErrorText errors)
  | ErrorObject message None => "An error occurred: " ++ message
  | NotAnError text => "An error occurred: " ++ text
  end.

Definition credentialsConfigured : bool :=
  negb (host config =? "")
  && match port config with Some p => negb (p =? 0)%Z | None => false end
  && negb (protocol config =? "")
  && negb (apiKey config =? "").

(** The body shared by the three copies of the tool; [perPage] is the page
    size of the exact search. *)
Definition lookup (perPage : Z) (args : request)
  : list event * CallToolResult :=
  let activeQueries := activeQueries args in
  if (List.length activeQueries =? 0)%nat then
    ([], TextResult
       "Error: Please provide at least one of name_query, vessel_query, or email_query.")
  else if negb credentialsConfigured then
    ([], TextResult "Error: Typesense credentials not configured.")
  else
    tryCatch
      (_ <- emit (NewClient (host config) (port config) (protocol config)
                    (apiKey config)) ;;
       searchResults <- search (exactParameters perPage activeQueries) ;;
       let hits := hitsOf searchResults in
       '(searchResults, hits) <-
         (if (List.length hits =? 0)%nat then
            searchResults <- search (fuzzyParameters activeQueries) ;;
            ret (searchResults, hitsOf searchResults)
          else ret (searchResults, hits)) ;;
       if (List.length hits =? 0)%nat then
         ret (TextResult "No results found for your query.")
       else
         ret (TextResult (responseText searchResults hits)))
      (fun error => TextResult (errorMessage error)).

(** src/tools.ts *)
Definition get_vessel_personnel_info (args : request)
  : list event * CallToolResult :=
  lookup 250 args.

(** The copies exposed as [fleet_vessel_lookup]. *)
Definition fleetVesselLookup (args : request)
  : list event * CallToolResult :=
  lookup 50 args.

(* ------------------------------------------------------------------ *)
(** *** The clauses of a group, before they are printed *)

Definition render (c : clause) : string :=
  match c with
  | NumEq f n => f ++ ":=" ++ numberText inexactText n
  | BoolEq f lit => f ++ ":=" ++ lit
  | StrEq f s => f ++ ":=" ++ bq ++ s ++ bq
  end.

(** [filterParts], clause by clause. *)
Definition clausesOf (queryType : string) (query : value) : list clause :=
  let searchFields := searchFieldsOf queryType in
  match query with
  | VStr query =>
      (if negb (queryType =? "email") then
         match parseInt query with
         | Some numericQuery =>
             flat_map (fun field =>
               if includes searchFields field
               then [NumEq field numericQuery] else []) numericFields
         | None => []
         end
         ++
         (if isBooleanLiteral query then
            flat_map (fun field =>
              if includes searchFields field
              then [BoolEq field (toLowerCase query)] else []) boolFields
          else [])
       else [])
      ++ map (fun field => StrEq field query)
           (filter isStringField searchFields)
  | _ => []
  end.

Definition renderGroup (cs : list clause) : string :=
  "(" ++ join " || " (map render cs) ++ ")".

(** The groups of the filter: one per active query that has a clause. *)
Definition groupsOf (active : list (string * value)) : list (list clause) :=
  flat_map (fun kv =>
    let cs := clausesOf (fst kv) (snd kv) in
    if (0 <? List.length cs)%nat then [cs] else []) active.

(** The verdict of the search service on one clause. *)
Variable holds : list (string * value) -> clause -> bool.

(* ------------------------------------------------------------------ *)
(** *** Vocabulary of the statements *)

(** A [null] slot read as a missing one. *)
Definition orMissing (v : value) : value :=
  match v with
  | VNull => VUndefined
  | _ => v
  end.

Definition isString (v : value) : bool :=
  match v with VStr _ => true | _ => false end.


(** The text of a string clause on [field] for the query [query]. *)
Definition stringClause (query field : string) : string :=
  field ++ ":=" ++ bq ++ query ++ bq.

(** The fields of a document that get a line in the report. *)
Definition printed (doc : list (string * value)) : list (string * value) :=
  filter (fun kv => truthy (snd kv)) doc.

(** The line of one field. *)
Definition fieldLine (kv : string * value) : string :=
  displayKey (fst kv) ++ ": " ++ displayValue (snd kv) ++ nl.

(** The block of the hit at index [i]. *)
Definition hitBlock (i : nat) (h : hit) : string :=
  "--- Result " ++ natText (i + 1) ++ " ---" ++ nl
  ++ join "" (map fieldLine (printed (document h))) ++ nl.

(** The blocks of a hit set whose first hit has index [i]. *)
Fixpoint hitBlocks (i : nat) (hs : list hit) : string :=
  match hs with
  | [] => ""
  | h :: rest => hitBlock i h ++ hitBlocks (S i) rest
  end.

(** The first line of the report. *)
Definition header (r : searchResults) (hs : list hit) : string :=
  "Found " ++ toText inexactText (found r) ++ " results. Showing top "
  ++ natText (List.length hs) ++ ":" ++ nl.

(* ================================================================== *)
(** ** Properties *)

(* ------------------------------------------------------------------ *)
(** *** Decimal numerals and [parseInt] *)










(* ------------------------------------------------------------------ *)
(** *** Strings and lists *)


Lemma join_empty (sep p : string) (rest : list string) :
  join sep (p :: rest) = "" -> p = "".
Proof.
  destruct rest; simpl; [auto|]. destruct p; [auto | discriminate].
Qed.

Lemma parenthesised_empty (s : string) : "(" ++ s ++ ")" = "()" -> s = "".
Proof.
  destruct s as [|c [|c' s']]; simpl; intros H;
    [reflexivity | discriminate H | discriminate H].
Qed.

Lemma render_not_empty (c : clause) : render c <> "".
Proof.
  destruct c as [f n|f lit|f s]; simpl; destruct f; discriminate.
Qed.

(* ------------------------------------------------------------------ *)
(** *** Active queries *)



(** The call depends on its arguments through the active queries only. *)
Lemma lookup_active (perPage : Z) (a b : request) :
  activeQueries a = activeQueries b -> lookup perPage a = lookup perPage b.
Proof. unfold lookup. intros ->. reflexivity. Qed.

(* ------------------------------------------------------------------ *)
(** *** The filter and its clauses *)

Lemma filterParts_render (queryType : string) (query : value) :
  filterParts queryType query = map render (clausesOf queryType query).
Proof.
  destruct query as [| |b|n|s|l|]; try reflexivity.
  unfold filterParts, clausesOf. rewrite map_app, map_map.
  f_equal.
  destruct (negb (queryType =? "email")); [|reflexivity].
  rewrite map_app. f_equal.
  - destruct (parseInt s); [|reflexivity]. simpl.
    destruct (includes _ "imo"); reflexivity.
  - destruct (isBooleanLiteral s); [|reflexivity]. simpl.
    destruct (includes _ "isV3"); reflexivity.
Qed.

Lemma combinedFilterParts_render (active : list (string * value)) :
  combinedFilterParts active = map renderGroup (groupsOf active).
Proof.
  unfold combinedFilterParts, groupsOf.
  induction active as [|kv rest IH]; [reflexivity|].
  simpl. rewrite map_app, <- IH. f_equal.
  unfold group. rewrite filterParts_render, length_map.
  destruct (0 <? _)%nat; reflexivity.
Qed.



Lemma no_empty_group (active : list (string * value)) :
  ~ In "()" (combinedFilterParts active).
Proof.
  rewrite combinedFilterParts_render, in_map_iff.
  intros [cs [E H]]. unfold groupsOf in H. rewrite in_flat_map in H.
  destruct H as [kv [_ H]].
  destruct (clausesOf (fst kv) (snd kv)) as [|c rest] eqn:C;
    simpl in H; [contradiction|].
  destruct H as [<-|[]].
  apply parenthesised_empty in E. simpl map in E.
  apply join_empty in E. exact (render_not_empty c E).
Qed.

(* ------------------------------------------------------------------ *)
(** *** Which slots take part *)

Lemma active_orMissing (n v e : value) :
  activeQueries (Request n v e)
  = activeQueries (Request (orMissing n) (orMissing v) (orMissing e)).
Proof. destruct n, v, e; reflexivity. Qed.

(** Claim C1, as amended.  A slot holding [undefined] or [null] is dropped
    before processing and treated as absent: reading every [null] slot as
    a missing one changes neither the active queries, nor the calls made to
    the search service, nor the response, in either copy of the tool.  An
    empty string is not dropped: it stays an active query and contributes a
    group of string clauses whose operand is empty, and so does a string
    of white space.  No group of the phase-1 filter is ever the empty
    [()]. *)
Theorem absent_slots_are_dropped :
  forall n v e : value,
    let args := Request n v e in
    let args' := Request (orMissing n) (orMissing v) (orMissing e) in
    activeQueries args = activeQueries args'
    /\ filterQuery (activeQueries args) = filterQuery (activeQueries args')
    /\ get_vessel_personnel_info args = get_vessel_personnel_info args'
    /\ fleetVesselLookup args = fleetVesselLookup args'
    /\ activeQueries (Request VNull v e)
       = activeQueries (Request VUndefined v e)
    /\ activeQueries (Request (VStr "") v e)
       = ("name", VStr "") :: activeQueries (Request VUndefined v e)
    /\ filterParts "name" (VStr "")
       = map (stringClause "") personNameFields
    /\ filterParts "name" (VStr " ")
       = map (stringClause " ") personNameFields
    /\ ~ In "()" (combinedFilterParts (activeQueries args)).
Proof.
  intros n v e args args'.
  assert (A : activeQueries args = activeQueries args')
    by apply active_orMissing.
  repeat split.
  - exact A.
  - rewrite A. reflexivity.
  - apply lookup_active, A.
  - apply lookup_active, A.
  - apply no_empty_group.
Qed.

(* ------------------------------------------------------------------ *)
(** *** Shape and meaning of the exact filter *)




(* ------------------------------------------------------------------ *)
(** *** The two phases *)

Lemma length_zero_iff (A : Type) (l : list A) :
  (List.length l =? 0)%nat = true <-> l = [].
Proof. destruct l; simpl; split; intros H; congruence. Qed.

Lemma length_nonzero (A : Type) (l : list A) :
  l <> [] -> (List.length l =? 0)%nat = false.
Proof. destruct l; simpl; congruence. Qed.

(** The call, once the two guards have let it through. *)
Lemma lookup_searches (perPage : Z) (args : request) :
  activeQueries args <> [] ->
  credentialsConfigured = true ->
  let active := activeQueries args in
  let client := NewClient (host config) (port config) (protocol config)
                  (apiKey config) in
  let exact := exactParameters perPage active in
  let fuzzy := fuzzyParameters active in
  lookup perPage args =
  match backend exact with
  | Throws e =>
      ([client; Search "fleet-vessel-lookup" exact],
       TextResult (errorMessage e))
  | Returns r =>
      if (List.length (hitsOf r) =? 0)%nat then
        match backend fuzzy with
        | Throws e =>
            ([client; Search "fleet-vessel-lookup" exact;
              Search "fleet-vessel-lookup" fuzzy],
             TextResult (errorMessage e))
        | Returns r' =>
            ([client; Search "fleet-vessel-lookup" exact;
              Search "fleet-vessel-lookup" fuzzy],
             if (List.length (hitsOf r') =? 0)%nat
             then TextResult "No results found for your query."
             else TextResult (responseText r' (hitsOf r')))
        end
      else
        ([client; Search "fleet-vessel-lookup" exact],
         TextResult (responseText r (hitsOf r)))
  end.
Proof.
  intros A C active client exact fuzzy. unfold lookup.
  rewrite (length_nonzero _ _ A), C. simpl negb. cbv iota.
  unfold search. fold active. fold exact. fold fuzzy. fold client.
  destruct (backend exact) as [r|e]; [|reflexivity]. simpl.
  destruct (List.length (hitsOf r) =? 0)%nat eqn:Z0; simpl.
  - destruct (backend fuzzy) as [r'|e']; [|reflexivity]. simpl.
    destruct (List.length (hitsOf r') =? 0)%nat; reflexivity.
  - rewrite Z0. reflexivity.
Qed.


(* ------------------------------------------------------------------ *)
(** *** Numeric and boolean coercion *)




(* ------------------------------------------------------------------ *)
(** *** The fuzzy query *)









Lemma isStringField_spec (f : string) :
  isStringField f = true <-> f <> "imo" /\ f <> "isV3".
Proof.
  unfold isStringField, numericFields, boolFields, includes. simpl.
  rewrite !orb_false_r, andb_true_iff, !negb_true_iff, !String.eqb_neq.
  tauto.
Qed.





(* ------------------------------------------------------------------ *)
(** *** The two guards *)

Lemma credentials_absent :
  host config = "" \/ port config = None \/ port config = Some 0%Z
  \/ protocol config = "" \/ apiKey config = "" ->
  credentialsConfigured = false.
Proof.
  unfold credentialsConfigured.
  intros [H|[H|[H|[H|H]]]]; rewrite H; simpl;
    rewrite ?andb_false_r; reflexivity.
Qed.

(** Claim C6, as amended.  When a credential of the search service (host,
    port, protocol or API key) is absent, no call reaches the network: the
    client is not constructed and neither search is run.  If the request
    has an active query, the tool returns, as an ordinary result, the text
    "Error: Typesense credentials not configured."; if it has none, the
    check of the query slots comes first and the tool returns its
    validation message instead. *)
Theorem missing_credentials_no_network :
  forall (perPage : Z) (args : request),
    host config = "" \/ port config = None \/ port config = Some 0%Z
    \/ protocol config = "" \/ apiKey config = "" ->
    fst (lookup perPage args) = []
    /\ (activeQueries args <> [] ->
        lookup perPage args
        = ([], TextResult "Error: Typesense credentials not configured."))
    /\ (activeQueries args = [] ->
        lookup perPage args
        = ([], TextResult
                 "Error: Please provide at least one of name_query, vessel_query, or email_query.")).
Proof.
  intros perPage args H. apply credentials_absent in H.
  unfold lookup. rewrite H. simpl negb.
  destruct (activeQueries args) as [|kv rest]; simpl.
  - split; [reflexivity|]. split; [congruence | reflexivity].
  - split; [reflexivity|]. split; [reflexivity | discriminate].
Qed.

(* ------------------------------------------------------------------ *)
(** *** The report *)

Lemma append_assoc (a b c : string) : (a ++ b) ++ c = a ++ b ++ c.
Proof. induction a as [|x a IH]; simpl; [reflexivity | now rewrite IH]. Qed.

Lemma append_empty_r (a : string) : a ++ "" = a.
Proof. induction a as [|x a IH]; simpl; [reflexivity | now rewrite IH]. Qed.

Lemma join_empty_sep (p : string) (rest : list string) :
  join "" (p :: rest) = p ++ join "" rest.
Proof. destruct rest; simpl; [now rewrite append_empty_r | reflexivity]. Qed.

Lemma addField_lines (doc : list (string * value)) :
  forall acc : string,
    fold_left addField doc acc
    = acc ++ join "" (map fieldLine (printed doc)).
Proof.
  induction doc as [|kv rest IH]; intros acc.
  - simpl. now rewrite append_empty_r.
  - cbn [fold_left]. rewrite IH. unfold printed at 2. cbn [filter].
    unfold addField. destruct (truthy (snd kv)); [|reflexivity].
    cbn [map]. rewrite join_empty_sep. unfold fieldLine.
    now rewrite !append_assoc.
Qed.

Lemma addHits_blocks (hs : list hit) :
  forall (i : nat) (acc : string),
    addHits i hs acc = acc ++ hitBlocks i hs.
Proof.
  induction hs as [|h rest IH]; intros i acc.
  - simpl. now rewrite append_empty_r.
  - cbn [addHits hitBlocks]. rewrite IH, addField_lines.
    unfold hitBlock. now rewrite !append_assoc.
Qed.

Lemma hitBlocks_printed (hs hs' : list hit) :
  map (fun h => printed (document h)) hs
  = map (fun h => printed (document h)) hs' ->
  forall i, hitBlocks i hs = hitBlocks i hs'.
Proof.
  revert hs'. induction hs as [|h rest IH]; intros [|h' rest'] E i;
    try discriminate E; [reflexivity|].
  simpl in E. injection E as E1 E2. cbn [hitBlocks]. unfold hitBlock.
  now rewrite E1, (IH rest' E2).
Qed.

Lemma printed_omits (d1 d2 : list (string * value)) (k : string)
  (v : value) :
  truthy v = false -> printed (d1 ++ (k, v) :: d2) = printed (d1 ++ d2).
Proof.
  intros F. unfold printed. rewrite !filter_app. cbn [filter snd].
  now rewrite F.
Qed.



(** Claim C8.  The report omits every falsy field, not only the empty,
    [null] and [undefined] ones: a field whose value is the boolean
    [false] or the number 0 has no line, so that the report of a hit set
    is the same text as if that field were absent from the document. *)
Theorem false_and_zero_are_omitted :
  forall (r : searchResults) (hs1 hs2 : list hit)
         (d1 d2 : list (string * value)) (k : string) (v : value),
    v = VBool false \/ v = VNum 0 ->
    truthy v = false
    /\ printed (d1 ++ (k, v) :: d2) = printed (d1 ++ d2)
    /\ responseText r (hs1 ++ Hit (d1 ++ (k, v) :: d2) :: hs2)
       = responseText r (hs1 ++ Hit (d1 ++ d2) :: hs2).
Proof.
  intros r hs1 hs2 d1 d2 k v H.
  assert (F : truthy v = false) by (destruct H as [-> | ->]; reflexivity).
  split; [exact F|]. split; [apply printed_omits, F|].
  unfold responseText. rewrite !addHits_blocks.
  rewrite !length_app. cbn [List.length]. f_equal.
  apply hitBlocks_printed. rewrite !map_app. cbn [map document].
  now rewrite (printed_omits d1 d2 k v F).
Qed.

(* ------------------------------------------------------------------ *)
(** *** Numeric prefixes and verbatim operands *)



(** Claim C10.  A string clause embeds the query verbatim between two
    back-ticks, with no escaping: the string clauses of a group are, for
    every query and in the order of the field group, [field:=`query`] for
    each field of the group other than [imo] and [isV3], and they come
    after the coerced (numeric, boolean) clauses.  Hence a query that
    contains a back-tick and a filter operator changes the structure of
    the filter: the clause printed for such a query is, as text, two
    clauses joined by [||], or two groups joined by [&&]. *)
Theorem query_is_embedded_verbatim :
  forall queryType query : string,
    (exists coerced,
        filterParts queryType (VStr query)
        = List.app coerced
            (map (fun field => field ++ ":=" ++ bq ++ query ++ bq)
               (filter isStringField (searchFieldsOf queryType)))
        /\ Forall (fun part =>
                     (exists f n, part = render (NumEq f n))
                     \/ (exists f lit, part = render (BoolEq f lit)))
             coerced)
    /\ (forall field,
          In field (searchFieldsOf queryType) ->
          field <> "imo" -> field <> "isV3" ->
          In (field ++ ":=" ++ bq ++ query ++ bq)
             (filterParts queryType (VStr query)))
    /\ bq = "`"
    /\ renderGroup [StrEq "fleet" "a` || fleet:=`b"]
       = renderGroup [StrEq "fleet" "a"; StrEq "fleet" "b"]
    /\ renderGroup [StrEq "fleet" "a`) && (fleet:=`b"]
       = join " && "
           [renderGroup [StrEq "fleet" "a"]; renderGroup [StrEq "fleet" "b"]].
Proof.
  intros queryType query.
  split; [|split; [|repeat split]].
  - unfold filterParts. eexists. split; [reflexivity|].
    destruct (negb (queryType =? "email")); [|constructor].
    apply Forall_app. split.
    + destruct (parseInt query) as [n|]; [|constructor].
      cbn [flat_map numericFields app].
      destruct (includes _ "imo"); constructor; [|constructor].
      left. exists "imo", n. reflexivity.
    + destruct (isBooleanLiteral query); [|constructor].
      cbn [flat_map boolFields app].
      destruct (includes _ "isV3"); constructor; [|constructor].
      right. exists "isV3", (toLowerCase query). reflexivity.
  - intros field H N1 N2. unfold filterParts. apply in_or_app. right.
    apply in_map_iff. exists field. split; [reflexivity|].
    apply filter_In. split; [exact H|]. apply isStringField_spec. auto.
Qed.

End Lookup.

(* ================================================================== *)
(** ** Worked examples *)

(* ------------------------------------------------------------------ *)
(** *** The tool on sample requests *)

Example parseInt_samples :
  parseInt "9876543" = Some 9876543%Z
  /\ parseInt "  -12x" = Some (-12)%Z
  /\ parseInt "+7" = Some 7%Z
  /\ parseInt "0x10" = Some 0%Z
  /\ parseInt "Ever Given" = None
  /\ parseInt "" = None
  /\ parseInt "-" = None.
Proof. repeat split. Qed.

Example displayKey_samples :
  displayKey "vesselName" = "Vessel Name"
  /\ displayKey "isV3" = "Is V3"
  /\ displayKey "imo" = "Imo"
  /\ displayKey "itPicEmailId" = "It Pic Email Id".
Proof. repeat split. Qed.

Example filter_of_two_queries :
  filterQuery sampleInexactText (activeQueries aliceOnEverGiven)
  = "(technicalSuperintendent:=`Alice` || procurementExec:=`Alice` || "
    ++ "owner:=`Alice` || marineSuperintendent:=`Alice` || "
    ++ "technicalExecutive:=`Alice` || dcoExec:=`Alice` || "
    ++ "pmsExec:=`Alice` || fleetManager:=`Alice` || "
    ++ "accountsPic:=`Alice` || backupTechSuperintendent:=`Alice` || "
    ++ "cmsSuperintendent:=`Alice` || itPic:=`Alice` || "
    ++ "manningGroupHead:=`Alice` || marineExec:=`Alice` || "
    ++ "marineManager:=`Alice`) && (vesselName:=`Ever Given` || "
    ++ "groupName:=`Ever Given` || shippalmDoc:=`Ever Given` || "
    ++ "class:=`Ever Given` || doc:=`Ever Given` || fleet:=`Ever Given`)".
Proof. vm_compute. reflexivity. Qed.

Example boolean_literal_on_vessel_and_name :
  filterParts sampleInexactText "vessel" (VStr "TRUE")
  = "isV3:=true"
    :: map (stringClause "TRUE")
         ["vesselName"; "groupName"; "shippalmDoc"; "class"; "doc"; "fleet"]
  /\ filterParts sampleInexactText "name" (VStr "true")
     = map (stringClause "true") personNameFields
  /\ filterParts sampleInexactText "email" (VStr "123")
     = map (stringClause "123") emailFields.
Proof. repeat split. Qed.

Example exact_hit_is_reported :
  get_vessel_personnel_info sampleInexactText sampleConfig exactHit
    everGivenQuery
  = ([NewClient "search.example.org" (Some 443%Z) "https" "key";
      Search "fleet-vessel-lookup"
        {| q := "*";
           filter_by :=
             Some ("(vesselName:=`Ever Given` || groupName:=`Ever Given` || "
                   ++ "shippalmDoc:=`Ever Given` || class:=`Ever Given` || "
                   ++ "doc:=`Ever Given` || fleet:=`Ever Given`)");
           query_by := None;
           per_page := 250 |}],
     TextResult
       ("Found 1 results. Showing top 1:" ++ nl ++ nl
        ++ "--- Result 1 ---" ++ nl
        ++ "Vessel Name: Ever Given" ++ nl
        ++ "Imo: 9811000" ++ nl
        ++ "Fleet: F1" ++ nl
        ++ "Owner: A Corp, B Corp" ++ nl
        ++ "Technical Superintendent: Alice" ++ nl
        ++ nl)).
Proof. vm_compute. reflexivity. Qed.

Example fuzzy_fallback_request :
  fleetVesselLookup sampleInexactText sampleConfig noHits aliceOnEverGiven
  = ([NewClient "search.example.org" (Some 443%Z) "https" "key";
      Search "fleet-vessel-lookup"
        (exactParameters sampleInexactText 50
           (activeQueries aliceOnEverGiven));
      Search "fleet-vessel-lookup"
        {| q := "Alice Ever Given";
           filter_by := None;
           query_by :=
             Some ("technicalSuperintendent,procurementExec,owner,"
                   ++ "marineSuperintendent,technicalExecutive,dcoExec,"
                   ++ "pmsExec,fleetManager,accountsPic,"
                   ++ "backupTechSuperintendent,cmsSuperintendent,itPic,"
                   ++ "manningGroupHead,marineExec,marineManager,"
                   ++ "vesselName,groupName,shippalmDoc,class,doc,fleet");
           per_page := 10 |}],
     TextResult "No results found for your query.").
Proof. vm_compute. reflexivity. Qed.

Example failing_search_is_reported :
  snd (get_vessel_personnel_info sampleInexactText sampleConfig
         (fun _ =>
            Throws (ErrorObject "all nodes failed"
                      (Some [("timeout", "Error: timeout");
                             ("", "ECONNREFUSED")])))
         everGivenQuery)
  = TextResult ("An aggregate error occurred: all nodes failed. "
                ++ "Individual errors: timeout; ECONNREFUSED").
Proof. vm_compute. reflexivity. Qed.

(* ------------------------------------------------------------------ *)
(** *** Instances and counterexamples of the claims *)

(** The empty name slot of {name_query: "", vessel_query: "Ever Given"} is
    not dropped: the filter, the fuzzy query and the calls differ from
    those of {vessel_query: "Ever Given"}. *)
Lemma empty_slot_is_not_dropped :
  filterQuery sampleInexactText (activeQueries emptyNameAndEverGiven)
  <> filterQuery sampleInexactText (activeQueries everGivenQuery)
  /\ fuzzyQ sampleInexactText (activeQueries emptyNameAndEverGiven)
     = " Ever Given"
  /\ fuzzyQ sampleInexactText (activeQueries everGivenQuery) = "Ever Given"
  /\ get_vessel_personnel_info sampleInexactText sampleConfig noHits
       emptyNameAndEverGiven
     <> get_vessel_personnel_info sampleInexactText sampleConfig noHits
          everGivenQuery.
Proof.
  split; [|split; [|split]].
  - apply String.eqb_neq. vm_compute. reflexivity.
  - reflexivity.
  - reflexivity.
  - intros H.
    apply (f_equal (fun run =>
             match fst run with
             | _ :: _ :: Search _ p :: _ => q p
             | _ => ""
             end)) in H.
    vm_compute in H. discriminate H.
Qed.





(** Without any query slot the validation message wins over the
    configuration error, although the host is missing. *)
Lemma validation_precedes_credentials :
  host noHostConfig = ""
  /\ get_vessel_personnel_info sampleInexactText noHostConfig noHits noQuery
     = ([], TextResult
              "Error: Please provide at least one of name_query, vessel_query, or email_query.")
  /\ get_vessel_personnel_info sampleInexactText noHostConfig noHits noQuery
     <> ([], TextResult "Error: Typesense credentials not configured.").
Proof.
  split; [reflexivity|]. split; [reflexivity|].
  intros H. apply (f_equal (fun run => text (snd run))) in H.
  vm_compute in H. discriminate H.
Qed.

Lemma missing_credentials_no_network_witness :
  (host noHostConfig = "" \/ port noHostConfig = None
   \/ port noHostConfig = Some 0%Z \/ protocol noHostConfig = ""
   \/ apiKey noHostConfig = "")
  /\ lookup sampleInexactText noHostConfig noHits 250 everGivenQuery
     = ([], TextResult "Error: Typesense credentials not configured.").
Proof.
  assert (H : host noHostConfig = "" \/ port noHostConfig = None
              \/ port noHostConfig = Some 0%Z \/ protocol noHostConfig = ""
              \/ apiKey noHostConfig = "") by (left; reflexivity).
  split; [exact H|].
  destruct (missing_credentials_no_network sampleInexactText noHostConfig
              noHits 250 everGivenQuery H) as [_ [C _]].
  apply C. discriminate.
Defined.

Lemma false_and_zero_are_omitted_witness :
  (VBool false = VBool false \/ VBool false = VNum 0)
  /\ responseText sampleInexactText
       {| found := VNum 1; hits := None |}
       [Hit [("vesselName", VStr "Ever Given"); ("isV3", VBool false)]]
     = responseText sampleInexactText
         {| found := VNum 1; hits := None |}
         [Hit [("vesselName", VStr "Ever Given")]].
Proof.
  assert (H : VBool false = VBool false \/ VBool false = VNum 0)
    by (left; reflexivity).
  split; [exact H|].
  exact (proj2 (proj2
           (false_and_zero_are_omitted sampleInexactText
              {| found := VNum 1; hits := None |} [] []
              [("vesselName", VStr "Ever Given")] [] "isV3" (VBool false)
              H))).
Defined.



(* ================================================================== *)
(** ** Properties of the text helpers *)

(* ------------------------------------------------------------------ *)
(** *** Stripping the tags *)

Lemma afterCloser_shorter (s rest : string) :
  afterCloser s = Some rest -> String.length rest < String.length s.
Proof.
  induction s as [|c r IH]; simpl; [discriminate|].
  destruct (Ascii.eqb c ">").
  - intros E. injection E as <-. lia.
  - intros E. specialize (IH E). lia.
Qed.

Lemma afterTag_shorter (r rest : string) :
  afterTag r = Some rest -> String.length rest < String.length r.
Proof.
  destruct r as [|c r']; simpl; [discriminate|].
  destruct (Ascii.eqb c ">"); [discriminate|].
  intros E. apply afterCloser_shorter in E. lia.
Qed.

Lemma stripTagsWith_fuel (fuel : nat) :
  forall s, String.length s <= fuel ->
            stripTagsWith fuel s = stripTags s.
Proof.
  unfold stripTags.
  induction fuel as [fuel IH] using lt_wf_ind. intros s L.
  destruct s as [|c r]; [destruct fuel; reflexivity|].
  destruct fuel as [|fuel]; simpl in L; [lia|]. simpl.
  assert (R : stripTagsWith fuel r = stripTagsWith (String.length r) r)
    by (apply IH; lia).
  destruct (Ascii.eqb c "<"); [|now rewrite R].
  destruct (afterTag r) as [rest|] eqn:T; [|now rewrite R].
  pose proof (afterTag_shorter _ _ T) as S.
  rewrite (IH fuel) by lia.
  symmetry. apply IH; lia.
Qed.

(** The equations of the replacement. *)
Lemma stripTags_cons (c : ascii) (r : string) :
  stripTags (String c r)
  = if Ascii.eqb c "<" then
      match afterTag r with
      | Some rest => stripTags rest
      | None => String c (stripTags r)
      end
    else String c (stripTags r).
Proof.
  unfold stripTags at 1. simpl.
  destruct (Ascii.eqb c "<").
  - destruct (afterTag r) as [rest|] eqn:T.
    + apply stripTagsWith_fuel. apply afterTag_shorter in T. lia.
    + reflexivity.
  - reflexivity.
Qed.

(** Induction along the replacement. *)
Lemma stripTags_induction (P : string -> Prop) :
  P "" ->
  (forall c r,
      Ascii.eqb c "<" = false \/ afterTag r = None ->
      P r -> P (String c r)) ->
  (forall r rest, afterTag r = Some rest -> P rest -> P (String "<" r)) ->
  forall s, P s.
Proof.
  intros H0 Hkeep Hdrop s.
  remember (String.length s) as n eqn:N. revert s N.
  induction n as [n IH] using lt_wf_ind. intros s N.
  destruct s as [|c r]; [exact H0|]. simpl in N.
  destruct (Ascii.eqb c "<") eqn:C.
  - apply Ascii.eqb_eq in C. subst c.
    destruct (afterTag r) as [rest|] eqn:T.
    + apply (Hdrop r rest T). apply (IH (String.length rest)); auto.
      apply afterTag_shorter in T. lia.
    + apply Hkeep; [right; exact T|]. apply (IH (String.length r)); auto.
      lia.
  - apply Hkeep; [left; exact C|]. apply (IH (String.length r)); auto. lia.
Qed.

Lemma afterTag_no_closer (r : string) :
  afterCloser r = None -> afterTag r = None.
Proof.
  destruct r as [|c r']; simpl; [reflexivity|].
  destruct (Ascii.eqb c ">"); [reflexivity | auto].
Qed.

Lemma stripTags_no_closer (s : string) :
  afterCloser s = None -> stripTags s = s.
Proof.
  induction s as [|c r IH]; [reflexivity|]. simpl.
  destruct (Ascii.eqb c ">") eqn:C; [discriminate|]. intros N.
  rewrite stripTags_cons, (afterTag_no_closer r N), (IH N).
  destruct (Ascii.eqb c "<"); reflexivity.
Qed.

Lemma afterTag_stripTags (r : string) :
  afterTag r = None -> afterTag (stripTags r) = None.
Proof.
  destruct r as [|c r']; [reflexivity|]. simpl.
  destruct (Ascii.eqb c ">") eqn:C.
  - intros _. rewrite stripTags_cons.
    apply Ascii.eqb_eq in C. subst c. simpl. reflexivity.
  - intros N.
    rewrite (stripTags_no_closer (String c r'))
      by (simpl; rewrite C; exact N).
    simpl. rewrite C. exact N.
Qed.

Lemma stripTags_tagFree (s : string) : tagFree (stripTags s) = true.
Proof.
  induction s as [|c r K IH|r rest T IH] using stripTags_induction.
  - reflexivity.
  - rewrite stripTags_cons.
    destruct (Ascii.eqb c "<") eqn:C.
    + destruct K as [K|K]; [discriminate|]. rewrite K. simpl.
      rewrite C, (afterTag_stripTags r K). exact IH.
    + simpl. rewrite C. exact IH.
  - rewrite stripTags_cons. simpl. rewrite T. exact IH.
Qed.

Lemma tagFree_stripTags (s : string) :
  tagFree s = true -> stripTags s = s.
Proof.
  induction s as [|c r IH]; [reflexivity|]. simpl. intros H.
  apply andb_true_iff in H. destruct H as [H1 H2].
  rewrite stripTags_cons, (IH H2).
  destruct (Ascii.eqb c "<"); [|reflexivity].
  destruct (afterTag r); [discriminate | reflexivity].
Qed.

Lemma afterCloser_body (body after : string) :
  ~ In ">"%char (chars body) ->
  afterCloser (body ++ String ">" after) = Some after.
Proof.
  induction body as [|c b IH]; simpl; intros N; [reflexivity|].
  destruct (Ascii.eqb_spec c ">") as [->|_]; [exfalso; apply N; now left|].
  apply IH. intros H. apply N. now right.
Qed.

Lemma afterCloser_split (s rest : string) :
  afterCloser s = Some rest ->
  exists body, s = body ++ String ">" rest /\ ~ In ">"%char (chars body).
Proof.
  revert rest. induction s as [|c r IH]; simpl; intros rest;
    [discriminate|].
  destruct (Ascii.eqb_spec c ">") as [->|N].
  - intros E. injection E as <-. exists "". split; [reflexivity | intros []].
  - intros E. destruct (IH rest E) as [body [-> B]].
    exists (String c body). split; [reflexivity|].
    simpl. intros [H|H]; [congruence | exact (B H)].
Qed.

Lemma afterTag_split (r rest : string) :
  afterTag r = Some rest ->
  exists body, r = body ++ String ">" rest /\ body <> ""
               /\ ~ In ">"%char (chars body).
Proof.
  destruct r as [|c r']; simpl; [discriminate|].
  destruct (Ascii.eqb_spec c ">") as [->|N]; [discriminate|].
  intros E. destruct (afterCloser_split _ _ E) as [body [-> B]].
  exists (String c body). split; [reflexivity|]. split; [discriminate|].
  simpl. intros [H|H]; [congruence | exact (B H)].
Qed.

Lemma tagFree_suffix (before s : string) :
  tagFree (before ++ s) = true -> tagFree s = true.
Proof.
  induction before as [|c b IH]; simpl; [auto|].
  intros H. apply andb_true_iff in H. apply IH, H.
Qed.

Lemma tagFree_hasTag (s : string) : tagFree s = true <-> ~ hasTag s.
Proof.
  split.
  - intros F [before [body [after [-> [B N]]]]].
    apply tagFree_suffix in F. simpl in F.
    apply andb_true_iff in F. destruct F as [F _].
    destruct body as [|c b]; [congruence|]. simpl in F.
    destruct (Ascii.eqb_spec c ">") as [->|_];
      [apply N; now left|].
    rewrite afterCloser_body in F; [discriminate|].
    intros H. apply N. now right.
  - induction s as [|c r IH]; [reflexivity|]. intros N. simpl.
    apply andb_true_iff. split.
    + destruct (Ascii.eqb_spec c "<") as [->|_]; [|reflexivity].
      destruct (afterTag r) as [rest|] eqn:T; [|reflexivity].
      exfalso. apply N. destruct (afterTag_split _ _ T) as [body [-> [B C]]].
      exists "", body, rest. auto.
    + apply IH. intros [before [body [after [-> H]]]]. apply N.
      exists (String c before), body, after. auto.
Qed.

(* ------------------------------------------------------------------ *)
(** *** Collapsing the runs of white space *)

Lemma collapse_start (r : string) :
  startsWithWhiteSpace r = false ->
  startsWithWhiteSpace (collapseFrom false r) = false.
Proof.
  destruct r as [|c r']; simpl; [reflexivity|]. intros W. rewrite W.
  simpl. exact W.
Qed.

Lemma collapse_singleSpaced (s : string) :
  startsWithWhiteSpace (collapseFrom true s) = false
  /\ singleSpaced (collapseFrom true s) = true
  /\ singleSpaced (collapseFrom false s) = true.
Proof.
  induction s as [|c r [IH1 [IH2 IH3]]]; [repeat split|].
  simpl. destruct (isWhiteSpace c) eqn:W.
  - split; [exact IH1|]. split; [exact IH2|].
    destruct (startsWithWhiteSpace r) eqn:R; simpl.
    + rewrite IH1, IH2. reflexivity.
    + rewrite W, (collapse_start r R), IH3. reflexivity.
  - simpl. rewrite W, IH3. repeat split.
Qed.

Lemma singleSpaced_collapse (s : string) :
  singleSpaced s = true -> collapseSpaces s = s.
Proof.
  unfold collapseSpaces.
  induction s as [|c r IH]; [reflexivity|]. simpl. intros H.
  apply andb_true_iff in H. destruct H as [H1 H2].
  rewrite (IH H2).
  destruct (isWhiteSpace c); [|reflexivity].
  destruct (startsWithWhiteSpace r); [discriminate | reflexivity].
Qed.

Lemma collapse_no_closer (s : string) :
  afterCloser s = None -> forall b, afterCloser (collapseFrom b s) = None.
Proof.
  induction s as [|c r IH]; [reflexivity|]. simpl.
  destruct (Ascii.eqb c ">") eqn:C; [discriminate|]. intros N b.
  specialize (IH N).
  destruct (isWhiteSpace c); [destruct b; [|destruct (startsWithWhiteSpace r)]|];
    simpl; rewrite ?C; auto.
Qed.

Lemma collapse_afterTag (r : string) :
  afterTag r = None -> afterTag (collapseFrom false r) = None.
Proof.
  destruct r as [|c r']; [reflexivity|]. simpl.
  destruct (Ascii.eqb_spec c ">") as [->|C].
  - intros _. reflexivity.
  - intros N.
    assert (K : afterCloser (String c r') = None)
      by (simpl; destruct (Ascii.eqb_spec c ">");
          [contradiction | exact N]).
    exact (afterTag_no_closer _ (collapse_no_closer _ K false)).
Qed.

Lemma collapse_tagFree (s : string) :
  tagFree s = true -> forall b, tagFree (collapseFrom b s) = true.
Proof.
  induction s as [|c r IH]; [reflexivity|]. simpl. intros H b.
  apply andb_true_iff in H. destruct H as [H1 H2]. specialize (IH H2).
  destruct (Ascii.eqb_spec c "<") as [->|C].
  - simpl. rewrite IH.
    destruct (afterTag r) eqn:T; [discriminate|].
    rewrite (collapse_afterTag r T). reflexivity.
  - destruct (isWhiteSpace c);
      [destruct b; [|destruct (startsWithWhiteSpace r)]|];
      simpl; rewrite ?IH; auto.
    all: destruct (Ascii.eqb_spec c "<"); [contradiction | reflexivity].
Qed.

(* ------------------------------------------------------------------ *)
(** *** Line breaks, tabs and the two ends *)

Lemma spaceForBreak_white (c : ascii) :
  isWhiteSpace (spaceForBreak c) = isWhiteSpace c.
Proof.
  unfold spaceForBreak. destruct (isBreak c) eqn:B; [|reflexivity].
  unfold isBreak in B. unfold isWhiteSpace, between.
  apply orb_true_iff in B.
  destruct B as [B|B]; apply Nat.eqb_eq in B; rewrite B; reflexivity.
Qed.

Lemma spaceForBreak_angle (c a : ascii) :
  a = "<"%char \/ a = ">"%char ->
  Ascii.eqb (spaceForBreak c) a = Ascii.eqb c a.
Proof.
  unfold spaceForBreak. destruct (isBreak c) eqn:B; [|reflexivity].
  unfold isBreak in B. apply orb_true_iff in B. intros A.
  destruct (Ascii.eqb_spec c a) as [->|_].
  - destruct A as [-> | ->]; discriminate B || (destruct B; discriminate).
  - destruct A as [-> | ->]; reflexivity.
Qed.

Lemma spacesForBreaks_breakFree (s : string) :
  breakFree (spacesForBreaks s) = true.
Proof.
  induction s as [|c r IH]; [reflexivity|]. simpl. rewrite IH.
  destruct (isBreak c) eqn:B; [reflexivity | now rewrite B].
Qed.

Lemma breakFree_spacesForBreaks (s : string) :
  breakFree s = true -> spacesForBreaks s = s.
Proof.
  induction s as [|c r IH]; [reflexivity|]. simpl. intros H.
  apply andb_true_iff in H. destruct H as [H1 H2]. rewrite (IH H2).
  destruct (isBreak c); [discriminate | reflexivity].
Qed.

Lemma spacesForBreaks_start (s : string) :
  startsWithWhiteSpace (spacesForBreaks s) = startsWithWhiteSpace s.
Proof. destruct s as [|c r]; [reflexivity|]. apply spaceForBreak_white. Qed.

Lemma spacesForBreaks_singleSpaced (s : string) :
  singleSpaced s = true -> singleSpaced (spacesForBreaks s) = true.
Proof.
  induction s as [|c r IH]; [reflexivity|]. simpl. intros H.
  apply andb_true_iff in H. destruct H as [H1 H2].
  fold (spaceForBreak c).
  rewrite spaceForBreak_white, spacesForBreaks_start, H1, (IH H2).
  reflexivity.
Qed.

Lemma spacesForBreaks_afterCloser (s : string) :
  afterCloser (spacesForBreaks s)
  = option_map spacesForBreaks (afterCloser s).
Proof.
  induction s as [|c r IH]; [reflexivity|]. simpl. fold (spaceForBreak c).
  rewrite (spaceForBreak_angle c ">") by auto.
  destruct (Ascii.eqb c ">"); [reflexivity | exact IH].
Qed.

Lemma spacesForBreaks_afterTag (r : string) :
  afterTag (spacesForBreaks r) = option_map spacesForBreaks (afterTag r).
Proof.
  destruct r as [|c r']; [reflexivity|]. simpl. fold (spaceForBreak c).
  rewrite (spaceForBreak_angle c ">") by auto.
  destruct (Ascii.eqb c ">"); [reflexivity|].
  apply spacesForBreaks_afterCloser.
Qed.

Lemma spacesForBreaks_tagFree (s : string) :
  tagFree s = true -> tagFree (spacesForBreaks s) = true.
Proof.
  induction s as [|c r IH]; [reflexivity|]. simpl. intros H.
  apply andb_true_iff in H. destruct H as [H1 H2].
  fold (spaceForBreak c).
  rewrite (spaceForBreak_angle c "<") by auto.
  rewrite spacesForBreaks_afterTag, (IH H2), andb_true_r.
  destruct (Ascii.eqb c "<"); [|reflexivity].
  destruct (afterTag r); [discriminate | reflexivity].
Qed.

(** What [skipWhiteSpace] and [trimEnd] leave. *)
Lemma skipWhiteSpace_start (s : string) :
  startsWithWhiteSpace (skipWhiteSpace s) = false.
Proof.
  induction s as [|c r IH]; [reflexivity|]. simpl.
  destruct (isWhiteSpace c) eqn:W; [exact IH | simpl; exact W].
Qed.

Lemma skipWhiteSpace_suffix (s : string) :
  exists before, s = before ++ skipWhiteSpace s.
Proof.
  induction s as [|c r [b IH]]; [exists ""; reflexivity|]. simpl.
  destruct (isWhiteSpace c).
  - exists (String c b). simpl. now rewrite <- IH.
  - exists "". reflexivity.
Qed.

Lemma skipWhiteSpace_id (s : string) :
  startsWithWhiteSpace s = false -> skipWhiteSpace s = s.
Proof. destruct s as [|c r]; simpl; [auto|]. now intros ->. Qed.

Lemma trimEnd_cons (c : ascii) (r : string) :
  trimEnd (String c r)
  = if (trimEnd r =? "") && isWhiteSpace c then ""
    else String c (trimEnd r).
Proof.
  simpl. destruct (trimEnd r); simpl; [|reflexivity].
  destruct (isWhiteSpace c); reflexivity.
Qed.

Lemma trimEnd_start (s : string) :
  startsWithWhiteSpace s = false ->
  startsWithWhiteSpace (trimEnd s) = false.
Proof.
  destruct s as [|c r]; [reflexivity|]. rewrite trimEnd_cons. simpl.
  intros W. rewrite W, andb_false_r. simpl. exact W.
Qed.

Lemma trimEnd_start_of (s : string) :
  startsWithWhiteSpace (trimEnd s) = true -> startsWithWhiteSpace s = true.
Proof.
  destruct s as [|c r]; [discriminate|]. rewrite trimEnd_cons. simpl.
  destruct ((trimEnd r =? "") && isWhiteSpace c); simpl; [discriminate | auto].
Qed.

Lemma trimEnd_last (s : string) : lastIsWhiteSpace (trimEnd s) = false.
Proof.
  induction s as [|c r IH]; [reflexivity|]. rewrite trimEnd_cons.
  destruct (trimEnd r) as [|c' r'] eqn:T; simpl.
  - destruct (isWhiteSpace c) eqn:W; simpl; [reflexivity | exact W].
  - exact IH.
Qed.

Lemma lastIsWhiteSpace_trimEnd (s : string) :
  lastIsWhiteSpace s = false -> trimEnd s = s.
Proof.
  induction s as [|c r IH]; [reflexivity|]. rewrite trimEnd_cons.
  destruct r as [|c' r'].
  - simpl. intros ->. reflexivity.
  - intros L. change (lastIsWhiteSpace (String c' r') = false) in L.
    rewrite (IH L). reflexivity.
Qed.

Lemma trimEnd_singleSpaced (s : string) :
  singleSpaced s = true -> singleSpaced (trimEnd s) = true.
Proof.
  induction s as [|c r IH]; [reflexivity|].
  intros H. simpl in H. apply andb_true_iff in H. destruct H as [H1 H2].
  rewrite trimEnd_cons. destruct ((trimEnd r =? "") && isWhiteSpace c); [reflexivity|].
  simpl. rewrite (IH H2), andb_true_r.
  destruct (isWhiteSpace c); [|reflexivity]. simpl in *.
  destruct (startsWithWhiteSpace (trimEnd r)) eqn:S; [|reflexivity].
  apply trimEnd_start_of in S. now rewrite S in H1.
Qed.

Lemma trimEnd_breakFree (s : string) :
  breakFree s = true -> breakFree (trimEnd s) = true.
Proof.
  induction s as [|c r IH]; [reflexivity|].
  intros H. simpl in H. apply andb_true_iff in H. destruct H as [H1 H2].
  rewrite trimEnd_cons. destruct ((trimEnd r =? "") && isWhiteSpace c); [reflexivity|].
  simpl. now rewrite H1, (IH H2).
Qed.

Lemma trimEnd_no_closer (s : string) :
  afterCloser s = None -> afterCloser (trimEnd s) = None.
Proof.
  induction s as [|c r IH]; [reflexivity|].
  intros N. simpl in N.
  destruct (Ascii.eqb c ">") eqn:C; [discriminate|].
  rewrite trimEnd_cons. destruct ((trimEnd r =? "") && isWhiteSpace c); [reflexivity|].
  simpl. rewrite C. exact (IH N).
Qed.

Lemma trimEnd_afterTag (r : string) :
  afterTag r = None -> afterTag (trimEnd r) = None.
Proof.
  destruct r as [|c r']; [reflexivity|]. intros N. simpl in N.
  destruct (Ascii.eqb_spec c ">") as [->|C].
  - rewrite trimEnd_cons. simpl. rewrite andb_false_r. reflexivity.
  - apply afterTag_no_closer, trimEnd_no_closer. simpl.
    destruct (Ascii.eqb_spec c ">"); [contradiction | exact N].
Qed.

Lemma trimEnd_tagFree (s : string) :
  tagFree s = true -> tagFree (trimEnd s) = true.
Proof.
  induction s as [|c r IH]; [reflexivity|].
  intros H. simpl in H. apply andb_true_iff in H. destruct H as [H1 H2].
  rewrite trimEnd_cons. destruct ((trimEnd r =? "") && isWhiteSpace c); [reflexivity|].
  simpl. rewrite (IH H2), andb_true_r.
  destruct (Ascii.eqb c "<"); [|reflexivity].
  destruct (afterTag r) eqn:T; [discriminate|].
  now rewrite (trimEnd_afterTag r T).
Qed.

Lemma singleSpaced_suffix (before s : string) :
  singleSpaced (before ++ s) = true -> singleSpaced s = true.
Proof.
  induction before as [|c b IH]; simpl; [auto|].
  intros H. apply andb_true_iff in H. apply IH, H.
Qed.

Lemma breakFree_suffix (before s : string) :
  breakFree (before ++ s) = true -> breakFree s = true.
Proof.
  induction before as [|c b IH]; simpl; [auto|].
  intros H. apply andb_true_iff in H. apply IH, H.
Qed.

(* ------------------------------------------------------------------ *)
(** *** The sanitised text *)

Lemma singleSpaced_spec (s : string) :
  singleSpaced s = true <-> ~ hasDoubleWhiteSpace s.
Proof.
  split.
  - intros S [before [c1 [c2 [after [-> [W1 W2]]]]]].
    apply singleSpaced_suffix in S. simpl in S.
    rewrite W1, W2 in S. discriminate S.
  - induction s as [|c r IH]; [reflexivity|]. intros N. simpl.
    apply andb_true_iff. split.
    + destruct (isWhiteSpace c) eqn:W1; [|reflexivity].
      destruct r as [|c' r']; [reflexivity|]. simpl.
      destruct (isWhiteSpace c') eqn:W2; [|reflexivity].
      exfalso. apply N. exists "", c, c', r'. auto.
    + apply IH. intros [before [c1 [c2 [after [-> H]]]]]. apply N.
      exists (String c before), c1, c2, after. auto.
Qed.

Lemma breakFree_spec (s : string) :
  breakFree s = true <-> forall c, In c (chars s) -> isBreak c = false.
Proof.
  induction s as [|c r IH]; simpl.
  - split; [intros _ c [] | reflexivity].
  - rewrite andb_true_iff, negb_true_iff, IH. split.
    + intros [H1 H2] x [<-|H]; auto.
    + intros H. split; [apply H; now left|]. intros x Hx. apply H. now right.
Qed.

Lemma lastIsWhiteSpace_spec (s : string) :
  lastIsWhiteSpace s = true <-> endsWithWhiteSpace s.
Proof.
  split.
  - induction s as [|c r IH]; [discriminate|].
    destruct r as [|c' r'].
    + simpl. intros W. exists "", c. auto.
    + intros L. destruct (IH L) as [before [x [E W]]].
      exists (String c before), x. split; [|exact W].
      simpl. now rewrite <- E.
  - intros [before [x [-> W]]].
    induction before as [|c b IH]; [exact W|].
    simpl. destruct (b ++ String x "") eqn:E; [|exact IH].
    destruct b; discriminate E.
Qed.

(** What every sanitised text satisfies. *)
Lemma sanitize_invariants (text : string) :
  let clean := sanitizeWhatsAppText text in
  tagFree clean = true /\ singleSpaced clean = true
  /\ breakFree clean = true /\ startsWithWhiteSpace clean = false
  /\ lastIsWhiteSpace clean = false.
Proof.
  unfold sanitizeWhatsAppText, trim.
  set (s3 := spacesForBreaks (collapseSpaces (stripTags text))).
  assert (T : tagFree s3 = true)
    by (apply spacesForBreaks_tagFree, collapse_tagFree,
          stripTags_tagFree).
  assert (S : singleSpaced s3 = true)
    by (apply spacesForBreaks_singleSpaced, collapse_singleSpaced).
  assert (B : breakFree s3 = true) by apply spacesForBreaks_breakFree.
  destruct (skipWhiteSpace_suffix s3) as [before E].
  rewrite E in T, S, B.
  apply tagFree_suffix in T. apply singleSpaced_suffix in S.
  apply breakFree_suffix in B.
  repeat split.
  - apply trimEnd_tagFree, T.
  - apply trimEnd_singleSpaced, S.
  - apply trimEnd_breakFree, B.
  - apply trimEnd_start, skipWhiteSpace_start.
  - apply trimEnd_last.
Qed.

Lemma sanitize_clean (s : string) :
  tagFree s = true -> singleSpaced s = true -> breakFree s = true ->
  startsWithWhiteSpace s = false -> lastIsWhiteSpace s = false ->
  sanitizeWhatsAppText s = s.
Proof.
  intros T S B W L. unfold sanitizeWhatsAppText, trim.
  rewrite (tagFree_stripTags s T), (singleSpaced_collapse s S),
    (breakFree_spacesForBreaks s B), (skipWhiteSpace_id s W).
  apply lastIsWhiteSpace_trimEnd, L.
Qed.

Lemma not_true_false (b : bool) : b <> true <-> b = false.
Proof. destruct b; split; congruence. Qed.

(** Property X1.  A sanitised message holds no tab and no line feed. *)
Theorem sanitized_text_has_no_break :
  forall (text : string) (c : ascii),
    In c (chars (sanitizeWhatsAppText text)) ->
    code c <> 9 /\ code c <> 10.
Proof.
  intros text c H.
  destruct (sanitize_invariants text) as [_ [_ [B _]]].
  pose proof (proj1 (breakFree_spec _) B c H) as K.
  unfold isBreak in K. apply orb_false_iff in K.
  destruct K as [K1 K2]. apply Nat.eqb_neq in K1, K2. auto.
Qed.

(** Property X2.  A sanitised message neither starts nor ends with a white
    space character, and no two white space characters of it are side by
    side. *)
Theorem sanitized_text_is_trimmed_and_single_spaced :
  forall text : string,
    startsWithWhiteSpace (sanitizeWhatsAppText text) = false
    /\ ~ endsWithWhiteSpace (sanitizeWhatsAppText text)
    /\ ~ hasDoubleWhiteSpace (sanitizeWhatsAppText text).
Proof.
  intros text.
  destruct (sanitize_invariants text) as [_ [S [_ [W L]]]].
  split; [exact W|]. split.
  - rewrite <- lastIsWhiteSpace_spec, not_true_false. exact L.
  - apply singleSpaced_spec, S.
Qed.

(** Property X3.  A sanitised message holds no tag: nowhere in it is there a
    [<] followed by one or more characters other than [>] and then a
    [>].  The later steps cannot bring back what the first step removed. *)
Theorem sanitized_text_has_no_tag :
  forall text : string, ~ hasTag (sanitizeWhatsAppText text).
Proof.
  intros text. apply tagFree_hasTag.
  exact (proj1 (sanitize_invariants text)).
Qed.

(** Property X4.  The texts that the sanitiser returns unchanged are exactly
    the clean ones: no tag, no two white space characters side by side,
    no tab or line feed, no white space at either end. *)
Theorem sanitize_unchanged_iff_clean :
  forall text : string,
    sanitizeWhatsAppText text = text <-> cleanText text.
Proof.
  intros text. unfold cleanText.
  rewrite <- tagFree_hasTag, <- singleSpaced_spec, <- breakFree_spec,
    <- lastIsWhiteSpace_spec, not_true_false.
  split.
  - intros E. pose proof (sanitize_invariants text) as I.
    cbv zeta in I. rewrite E in I. exact I.
  - intros [T [S [B [W L]]]]. now apply sanitize_clean.
Qed.

(** Property X5.  Sanitising is idempotent: a message that went through the
    sanitiser is not changed by a second pass. *)
Theorem sanitize_idempotent :
  forall text : string,
    sanitizeWhatsAppText (sanitizeWhatsAppText text)
    = sanitizeWhatsAppText text.
Proof.
  intros text.
  destruct (sanitize_invariants text) as [T [S [B [W L]]]].
  now apply sanitize_clean.
Qed.

(* ------------------------------------------------------------------ *)
(** *** The path of the converted PDF *)

Lemma hasDot_app (a b : string) : hasDot (a ++ b) = hasDot a || hasDot b.
Proof.
  induction a as [|c r IH]; [reflexivity|]. simpl.
  now rewrite IH, orb_assoc.
Qed.

Lemma pdfPath_no_dot (p : string) : hasDot p = false -> pdfPath p = p.
Proof.
  induction p as [|c r IH]; [reflexivity|]. simpl. intros H.
  apply orb_false_iff in H. destruct H as [H1 H2].
  now rewrite H1, (IH H2).
Qed.

Lemma pdfPath_extension (stem ext : string) :
  ext <> "" -> hasDot ext = false ->
  pdfPath (stem ++ "." ++ ext) = stem ++ ".pdf".
Proof.
  intros N D. change ("." ++ ext) with (String "." ext).
  induction stem as [|c r IH]; simpl.
  - rewrite D. destruct ext; [contradiction | reflexivity].
  - rewrite IH, hasDot_app. simpl. rewrite orb_true_r, andb_false_r.
    reflexivity.
Qed.

Lemma pdfPath_shape (p : string) :
  pdfPath p = p \/ exists stem, pdfPath p = stem ++ ".pdf".
Proof.
  induction p as [|c r IH]; [now left|]. simpl.
  destruct (Ascii.eqb c "." && negb (r =? "") && negb (hasDot r)).
  - right. exists "". reflexivity.
  - destruct IH as [-> | [stem ->]]; [now left|].
    right. exists (String c stem). reflexivity.
Qed.

(** Property X6.  The PDF written for an attachment takes the path of the
    source cut at its last dot, with [.pdf] appended, whenever that dot is
    followed by at least one character: "a/b.c/file.txt" gives
    "a/b.c/file.pdf".  The dot may belong to a directory name:
    "dir.v1/readme" gives "dir.pdf". *)
Theorem pdfPath_replaces_last_extension :
  forall stem ext : string,
    ext <> "" ->
    hasDot ext = false ->
    pdfPath (stem ++ "." ++ ext) = stem ++ ".pdf"
    /\ pdfPath "a/b.c/file.txt" = "a/b.c/file.pdf"
    /\ pdfPath "dir.v1/readme" = "dir.pdf".
Proof.
  intros stem ext N D. split; [now apply pdfPath_extension|].
  split; reflexivity.
Qed.

(** Property X7.  A source path without any dot, or one that ends with a dot,
    is returned as it is, so that the PDF is written at the path of its
    own source; and replacing the extension twice is the same as
    replacing it once. *)
Theorem pdfPath_unchanged_and_idempotent :
  forall p : string,
    (hasDot p = false -> pdfPath p = p)
    /\ pdfPath (p ++ ".") = p ++ "."
    /\ pdfPath (pdfPath p) = pdfPath p.
Proof.
  intros p. split; [apply pdfPath_no_dot|]. split.
  - induction p as [|c r IH]; [reflexivity|]. simpl.
    rewrite IH, hasDot_app. simpl. rewrite orb_true_r, !andb_false_r.
    reflexivity.
  - destruct (pdfPath_shape p) as [E | [stem E]]; rewrite E;
      [exact E|].
    apply (pdfPath_extension stem "pdf"); [discriminate | reflexivity].
Qed.

Lemma length_append (a b : string) :
  String.length (a ++ b) = String.length a + String.length b.
Proof. induction a as [|c r IH]; simpl; [reflexivity | now rewrite IH]. Qed.

(** Property X8.  In the older WhatsApp sender a path that ends in [.txt]
    is converted to the same path with [.pdf] in place of that ending,
    and the conversion is asked for such paths only; any other path is
    left as it is by the replacement. *)
Theorem pdfPathOfTxt_replaces_txt_ending :
  forall stem : string,
    endsWithTxt (stem ++ ".txt") = true
    /\ pdfPathOfTxt (stem ++ ".txt") = stem ++ ".pdf"
    /\ (forall p, endsWithTxt p = false -> pdfPathOfTxt p = p).
Proof.
  intros stem. split; [|split].
  - induction stem as [|c r IH]; [reflexivity|].
    simpl. simpl in IH. rewrite IH. apply orb_true_r.
  - induction stem as [|c r IH]; [reflexivity|].
    change (pdfPathOfTxt (String c (r ++ ".txt")) = String c (r ++ ".pdf")).
    cbn [pdfPathOfTxt]. rewrite IH.
    destruct (String.eqb_spec (String c (r ++ ".txt")) ".txt") as [E|_];
      [|reflexivity].
    apply (f_equal String.length) in E. simpl in E.
    rewrite length_append in E. simpl in E. lia.
  - intros p. induction p as [|c r IH]; [reflexivity|].
    cbn [endsWithTxt pdfPathOfTxt]. intros H.
    apply orb_false_iff in H. destruct H as [H1 H2].
    now rewrite H1, (IH H2).
Qed.

(* ------------------------------------------------------------------ *)
(** *** The identifier of a table component *)

Lemma spanDigits_spec (s d rest : string) :
  spanDigits s = (d, rest) ->
  s = d ++ rest /\ forallb isDigit (chars d) = true
  /\ startsWithDigit rest = false.
Proof.
  revert d rest. induction s as [|c r IH]; simpl; intros d rest E.
  - injection E as <- <-. repeat split.
  - destruct (isDigit c) eqn:D.
    + destruct (spanDigits r) as [d' rest'].
      injection E as <- <-.
      destruct (IH d' rest' eq_refl) as [-> [A B]].
      simpl. rewrite D. repeat split; auto.
    + injection E as <- <-. simpl. rewrite D. repeat split.
Qed.

Lemma spanDigits_app (d rest : string) :
  forallb isDigit (chars d) = true -> startsWithDigit rest = false ->
  spanDigits (d ++ rest) = (d, rest).
Proof.
  intros A B. induction d as [|c r IH]; simpl.
  - destruct rest as [|c r]; [reflexivity|]. simpl in *. now rewrite B.
  - simpl in A. apply andb_true_iff in A. destruct A as [A1 A2].
    now rewrite A1, (IH A2).
Qed.

Lemma digitsThenUnderscore_spec (s d rest : string) :
  digitsThenUnderscore s = Some (d, rest) ->
  s = d ++ "_" ++ rest /\ digitString d = true.
Proof.
  unfold digitsThenUnderscore, digitString.
  destruct (spanDigits s) as [d' rest'] eqn:E.
  destruct (spanDigits_spec _ _ _ E) as [-> [A _]].
  destruct d' as [|c d'']; [discriminate|].
  destruct rest' as [|u rest'']; [discriminate|].
  destruct (Ascii.eqb_spec u "_") as [->|_]; [|discriminate].
  intros H. injection H as <- <-. split; [reflexivity | exact A].
Qed.

Lemma digitsThenUnderscore_app (d rest : string) :
  digitString d = true ->
  digitsThenUnderscore (d ++ "_" ++ rest) = Some (d, rest).
Proof.
  unfold digitString, digitsThenUnderscore. intros H.
  apply andb_true_iff in H. destruct H as [N A].
  rewrite (spanDigits_app d ("_" ++ rest) A eq_refl).
  destruct d; [discriminate | reflexivity].
Qed.

(** Property X9.  When a component identifier is accepted, the key that is
    looked up in the collection is the identifier itself, and it is made
    of three non-empty strings of digits separated by underscores. *)
Theorem accepted_component_id_is_its_key :
  forall (componentId : string) (groups : string * string * string),
    componentIdMatch componentId = Some groups ->
    componentNo groups = componentId
    /\ digitString (fst (fst groups)) = true
    /\ digitString (snd (fst groups)) = true
    /\ digitString (snd groups) = true.
Proof.
  intros componentId [[a b] c]. unfold componentIdMatch.
  destruct (digitsThenUnderscore componentId) as [[a' s1]|] eqn:E1;
    [|discriminate].
  destruct (digitsThenUnderscore s1) as [[b' s2]|] eqn:E2; [|discriminate].
  destruct (spanDigits s2) as [c' rest] eqn:E3.
  destruct (digitsThenUnderscore_spec _ _ _ E1) as [-> A].
  destruct (digitsThenUnderscore_spec _ _ _ E2) as [-> B].
  destruct (spanDigits_spec _ _ _ E3) as [-> [C _]].
  destruct c' as [|x c'']; [discriminate|].
  destruct rest; [|discriminate].
  intros H. injection H as <- <- <-. simpl fst. simpl snd.
  repeat split; auto.
  unfold componentNo. now rewrite append_empty_r.
Qed.

(** Property X10.  Every identifier made of three non-empty strings of
    digits separated by underscores is accepted, with these strings as
    its groups; an identifier with a trailing character or an empty part
    is refused. *)
Theorem well_formed_component_id_is_accepted :
  forall a b c : string,
    digitString a = true -> digitString b = true -> digitString c = true ->
    componentIdMatch (a ++ "_" ++ b ++ "_" ++ c) = Some (a, b, c)
    /\ componentIdMatch "12_3_" = None
    /\ componentIdMatch "12_3_4 " = None
    /\ componentIdMatch "12_3_4_5" = None.
Proof.
  intros a b c A B C. split; [|repeat split].
  unfold componentIdMatch.
  rewrite (digitsThenUnderscore_app a _ A),
    (digitsThenUnderscore_app b _ B).
  unfold digitString in C. apply andb_true_iff in C. destruct C as [N D].
  rewrite <- (append_empty_r c) at 1.
  rewrite (spanDigits_app c "" D eq_refl).
  destruct c; [discriminate | reflexivity].
Qed.

(* ================================================================== *)
(** ** Properties of the WhatsApp tool *)

Lemma skipWhiteSpace_empty (s : string) :
  skipWhiteSpace s = "" <-> forallb isWhiteSpace (chars s) = true.
Proof.
  induction s as [|c r IH]; simpl; [tauto|].
  destruct (isWhiteSpace c); simpl; [exact IH|].
  split; discriminate.
Qed.

Lemma trimEnd_empty (s : string) :
  trimEnd s = "" -> s = "" \/ startsWithWhiteSpace s = true.
Proof.
  destruct s as [|c r]; [now left|]. rewrite trimEnd_cons. simpl.
  destruct (isWhiteSpace c); [now right|].
  rewrite andb_false_r. discriminate.
Qed.

Lemma trim_empty (s : string) :
  trim s = "" <-> forallb isWhiteSpace (chars s) = true.
Proof.
  unfold trim. rewrite <- skipWhiteSpace_empty. split.
  - intros H. destruct (trimEnd_empty _ H) as [E|E]; [exact E|].
    now rewrite skipWhiteSpace_start in E.
  - intros ->. reflexivity.
Qed.

Lemma blank_spec (s : string) :
  WhatsApp.blank (Some s) = true <-> forallb isWhiteSpace (chars s) = true.
Proof.
  unfold WhatsApp.blank. rewrite orb_true_iff, Nat.eqb_eq, String.eqb_eq.
  rewrite <- trim_empty. split.
  - intros [->|H]; [reflexivity|]. now destruct (trim s).
  - intros ->. now right.
Qed.

Section WhatsAppProperties.

Variable inexactText : Z -> string.
Variable config : WhatsApp.whatsappConfig.
Variable extname : string -> string.
Variable mimeLookup : string -> option string.
Variable readFile : string -> failure + string.
Variable streamError : string -> option failure.
Variable postMedia : string -> string -> string -> httpReply.
Variable postMessage : string -> WhatsApp.payload -> httpReply.

Local Abbreviation whatsappCommunication :=
  (WhatsApp.whatsappCommunication inexactText config extname mimeLookup
     readFile streamError postMedia postMessage).

(** Property X11.  A request whose recipient is missing or made of white
    space only is answered "Error: WhatsApp recipient is required"; one
    with a recipient whose content is missing or made of white space only
    is answered "Error: WhatsApp message content is required".  In both
    cases nothing is converted, uploaded or sent. *)
Theorem blank_whatsapp_fields_are_refused :
  forall args : WhatsApp.WhatsAppRequest,
    (WhatsApp.blank (WhatsApp.recipient args) = true ->
     whatsappCommunication args
     = ([], inr (TextResult "Error: WhatsApp recipient is required")))
    /\ (WhatsApp.blank (WhatsApp.recipient args) = false ->
        WhatsApp.blank (WhatsApp.content args) = true ->
        whatsappCommunication args
        = ([], inr (TextResult
                      "Error: WhatsApp message content is required")))
    /\ WhatsApp.blank None = true
    /\ (forall s,
          WhatsApp.blank (Some s) = true <->
          forallb isWhiteSpace (chars s) = true).
Proof.
  intros args. unfold WhatsApp.whatsappCommunication.
  split; [|split; [|split; [reflexivity | apply blank_spec]]].
  - intros ->. reflexivity.
  - intros -> ->. reflexivity.
Qed.

Lemma not_blank (o : option string) :
  WhatsApp.blank o = false -> exists s, o = Some s /\ s <> "".
Proof.
  destruct o as [s|]; [|discriminate]. simpl. intros H.
  apply orb_false_iff in H. destruct H as [H _].
  apply String.eqb_neq in H. eauto.
Qed.

(** Property X12.  A valid request without attachment, with WhatsApp
    configured, makes exactly one request: the template
    [send_plain_text_] in English, with the header "Automated response"
    and the message as body, posted to [url/messages].  The answer says
    "sent successfully" exactly when the response has status 200, and the
    template's own check of its two parameters never fails. *)
Theorem plain_message_is_one_template_post :
  forall (args : WhatsApp.WhatsAppRequest) (r m : string),
    WhatsApp.recipient args = Some r ->
    WhatsApp.blank (Some r) = false ->
    WhatsApp.content args = Some m ->
    WhatsApp.blank (Some m) = false ->
    WhatsApp.attachment_path args = None
    \/ WhatsApp.attachment_path args = Some "" ->
    WhatsApp.configured config = true ->
    let messagesUrl := WhatsApp.url config ++ "/messages" in
    let body :=
      {| WhatsApp.to := r;
         WhatsApp.templateName := "send_plain_text_";
         WhatsApp.languageCode := "en";
         WhatsApp.components :=
           [WhatsApp.Header [WhatsApp.TextParameter "Automated response"];
            WhatsApp.Body [WhatsApp.TextParameter m]] |} in
    whatsappCommunication args
    = ([WhatsApp.PostMessage messagesUrl (WhatsApp.token config) body],
       inr (TextResult
              match postMessage messagesUrl body with
              | Responds status data =>
                  if (status =? 200)%Z then
                    "WhatsApp message sent successfully: "
                    ++ "Template 'send_plain_text_' sent to " ++ r ++ "."
                  else
                    "WhatsApp message failed: Error "
                    ++ numberText inexactText status ++ ": "
                    ++ dataJson data
              | Fails e =>
                  "WhatsApp message failed: Exception: "
                  ++ match failureResponse e with
                     | Some json => json
                     | None => failureString e
                     end
              end)).
Proof.
  intros args r m Hr Br Hm Bm Ha C messagesUrl body.
  unfold WhatsApp.whatsappCommunication.
  rewrite Hr, Br, Hm, Bm.
  assert (S : WhatsApp._sendTemplateMessage inexactText config postMessage
                r "send_plain_text_" ["Automated response"; m] VUndefined
                None
              = ([WhatsApp.PostMessage messagesUrl (WhatsApp.token config)
                    body],
                 inr match postMessage messagesUrl body with
                     | Responds status data =>
                         if (status =? 200)%Z then
                           {| WhatsApp.status := "success";
                              WhatsApp.output :=
                                "Template 'send_plain_text_' sent to "
                                ++ r ++ "." |}
                         else
                           {| WhatsApp.status := "failure";
                              WhatsApp.output :=
                                "Error " ++ numberText inexactText status
                                ++ ": " ++ dataJson data |}
                     | Fails e =>
                         {| WhatsApp.status := "failure";
                            WhatsApp.output :=
                              "Exception: "
                              ++ match failureResponse e with
                                 | Some json => json
                                 | None => failureString e
                                 end |}
                     end)).
  { unfold WhatsApp._sendTemplateMessage. rewrite C. simpl.
    fold messagesUrl. fold body.
    destruct (postMessage messagesUrl body) as [status data|e]; simpl;
      [destruct (status =? 200)%Z|]; reflexivity. }
  destruct Ha as [-> | ->]; simpl; rewrite S; simpl;
    (destruct (postMessage messagesUrl body) as [status data|e];
     [destruct (status =? 200)%Z|]; reflexivity).
Qed.

Lemma writePdf_log (filePath pdf : string) (text : string -> string) :
  forall e,
    In e (fst (WhatsApp.writePdf readFile streamError filePath pdf text)) ->
    e = WhatsApp.CreatePdf pdf \/ e = WhatsApp.ReadFile filePath
    \/ exists fileContent,
         readFile filePath = inr fileContent
         /\ e = WhatsApp.PdfText pdf (text fileContent).
Proof.
  unfold WhatsApp.writePdf. intros e. simpl.
  destruct (readFile filePath) as [err|fileContent]; simpl.
  - intuition.
  - destruct (streamError pdf); simpl; intuition eauto.
Qed.

Lemma upload_unconfigured (filePath mimeType : string) :
  WhatsApp.configured config = false ->
  WhatsApp._uploadMedia inexactText config postMedia filePath mimeType
  = ([], inl (newError "WhatsApp URL or token not configured")).
Proof. unfold WhatsApp._uploadMedia. now intros ->. Qed.

Lemma send_unconfigured (recipient templateName : string)
  (params : list string) (mediaId : value) (mediaType : option string) :
  WhatsApp.configured config = false ->
  WhatsApp._sendTemplateMessage inexactText config postMessage recipient
    templateName params mediaId mediaType
  = ([], inl (newError "WhatsApp URL or token not configured")).
Proof. unfold WhatsApp._sendTemplateMessage. now intros ->. Qed.

(** The part of the call that deals with the file of the attachment. *)
Lemma conversion_log (attachmentPath ext : string) :
  forall e,
    In e (fst (if negb (includes WhatsApp.supported ext)
               then WhatsApp._convertToPdf readFile streamError
                      attachmentPath ext
               else if ext =? ".txt"
                    then WhatsApp._convertTxtToPdf readFile streamError
                           attachmentPath
                    else done attachmentPath)) ->
    isRequest e = false.
Proof.
  intros e H.
  assert (W : forall text,
             In e (fst (WhatsApp.writePdf readFile streamError
                          attachmentPath (pdfPath attachmentPath) text)) ->
             isRequest e = false).
  { intros text K. apply writePdf_log in K.
    destruct K as [-> | [-> | [fileContent [_ ->]]]]; reflexivity. }
  unfold WhatsApp._convertToPdf, WhatsApp._convertTxtToPdf in H.
  destruct (negb (includes WhatsApp.supported ext)).
  - destruct ((ext =? ".md") || (ext =? ".csv") || (ext =? ".rtf"));
      [|destruct (ext =? ".html")]; exact (W _ H).
  - destruct (ext =? ".txt"); [exact (W _ H) | destruct H].
Qed.

(** Property X13.  When the URL or the token of WhatsApp is not configured,
    no request reaches the network, whatever the arguments: at most the
    file of the attachment is read and its PDF written.  The tool still
    answers with a text; for a valid request without attachment it is
    "Failed to send WhatsApp message: Error: WhatsApp URL or token not
    configured", and nothing at all has been done. *)
Theorem no_request_without_whatsapp_configuration :
  forall args : WhatsApp.WhatsAppRequest,
    WhatsApp.configured config = false ->
    (forall e, In e (fst (whatsappCommunication args)) ->
               isRequest e = false)
    /\ (exists text, snd (whatsappCommunication args)
                     = inr (TextResult text))
    /\ (WhatsApp.blank (WhatsApp.recipient args) = false ->
        WhatsApp.blank (WhatsApp.content args) = false ->
        WhatsApp.attachment_path args = None ->
        whatsappCommunication args
        = ([], inr (TextResult
                      ("Failed to send WhatsApp message: "
                       ++ "Error: WhatsApp URL or token not configured")))).
Proof.
  intros args C. unfold WhatsApp.whatsappCommunication.
  destruct (WhatsApp.blank (WhatsApp.recipient args));
    [split; [intros e []|split; [eexists; reflexivity | discriminate]]|].
  destruct (WhatsApp.blank (WhatsApp.content args));
    [split; [intros e []|split; [eexists; reflexivity | discriminate]]|].
  destruct (WhatsApp.attachment_path args) as [p|].
  - destruct (negb (p =? "")).
    + pose proof (conversion_log p (toLowerCase (extname p))) as K.
      destruct (if negb (includes WhatsApp.supported
                           (toLowerCase (extname p)))
                then _ else _) as [log [err|p']]; simpl in K |- *.
      * split; [|split; [eexists; reflexivity | discriminate]].
        intros e H. rewrite app_nil_r in H. auto.
      * rewrite upload_unconfigured by exact C. simpl.
        split; [|split; [eexists; reflexivity | discriminate]].
        intros e H. rewrite !app_nil_r in H. auto.
    + simpl. rewrite send_unconfigured by exact C. simpl.
      split; [intros e []|split; [eexists; reflexivity | discriminate]].
  - simpl. rewrite send_unconfigured by exact C. simpl.
    split; [intros e []|split; [eexists; reflexivity | reflexivity]].
Qed.

Lemma upload_accepted (filePath mimeType : string) (data : responseData) :
  WhatsApp.configured config = true ->
  postMedia (WhatsApp.url config ++ "/media") filePath mimeType
  = Responds 200 data ->
  WhatsApp._uploadMedia inexactText config postMedia filePath mimeType
  = ([WhatsApp.PostMedia (WhatsApp.url config ++ "/media") filePath
        mimeType (WhatsApp.token config)],
     inr (dataId data)).
Proof.
  unfold WhatsApp._uploadMedia. intros -> U. simpl. rewrite U. reflexivity.
Qed.

(** Property X14.  For a valid request whose attachment has a supported
    extension other than [.txt], with WhatsApp configured and the upload
    answered with status 200, the tool makes two requests: the upload of
    the file as it is, then one template.  The template is
    [send_image_file_] with an [image] header when the MIME type starts
    with [image/], [send_document_file_] with a [document] header
    otherwise; the header is left out when the upload gave no usable id;
    the body is the message. *)
Theorem attachment_is_uploaded_then_sent :
  forall (args : WhatsApp.WhatsAppRequest) (r m p : string)
         (data : responseData),
    WhatsApp.recipient args = Some r ->
    WhatsApp.blank (Some r) = false ->
    WhatsApp.content args = Some m ->
    WhatsApp.blank (Some m) = false ->
    WhatsApp.attachment_path args = Some p ->
    p <> "" ->
    includes WhatsApp.supported (toLowerCase (extname p)) = true ->
    toLowerCase (extname p) <> ".txt" ->
    WhatsApp.configured config = true ->
    let mimeType :=
      match mimeLookup p with
      | Some mt => if mt =? "" then "application/octet-stream" else mt
      | None => "application/octet-stream"
      end in
    let mediaUrl := WhatsApp.url config ++ "/media" in
    postMedia mediaUrl p mimeType = Responds 200 data ->
    let kind := if prefix "image/" mimeType then "image" else "document" in
    let body :=
      {| WhatsApp.to := r;
         WhatsApp.templateName :=
           if prefix "image/" mimeType then "send_image_file_"
           else "send_document_file_";
         WhatsApp.languageCode := "en";
         WhatsApp.components :=
           ((if truthy (dataId data)
             then [WhatsApp.Header
                     [WhatsApp.MediaParameter kind (dataId data)]]
             else [])
            ++ [WhatsApp.Body [WhatsApp.TextParameter m]])%list |} in
    fst (whatsappCommunication args)
    = [WhatsApp.PostMedia mediaUrl p mimeType (WhatsApp.token config);
       WhatsApp.PostMessage (WhatsApp.url config ++ "/messages")
         (WhatsApp.token config) body].
Proof.
  intros args r m p data Hr Br Hm Bm Ha Np Sup Ntxt C mimeType mediaUrl
    Up kind body.
  destruct (not_blank _ Bm) as [m' [Em Nm]]. injection Em as <-.
  apply String.eqb_neq in Np, Ntxt, Nm.
  unfold WhatsApp.whatsappCommunication.
  rewrite Hr, Br, Hm, Bm, Ha, Np, Sup, Ntxt. cbn [negb]. cbv iota.
  cbn [andThen done]. fold mimeType.
  rewrite (upload_accepted p mimeType data C Up), Nm.
  unfold WhatsApp._sendTemplateMessage. rewrite C.
  subst body kind.
  destruct (prefix "image/" mimeType); cbn;
    destruct (truthy (dataId data)); cbn;
    destruct (postMessage _ _) as [status d|e]; cbn;
    try destruct (status =? 200)%Z; reflexivity.
Qed.

Lemma andThen_log (E A B : Type) (m : Run E A) (k : A -> Run E B)
  (e : E) :
  In e (fst (andThen m k)) ->
  In e (fst m) \/ exists a, snd m = inr a /\ In e (fst (k a)).
Proof.
  destruct m as [log [err|a]]; simpl; [auto|].
  destruct (k a) as [log' r] eqn:K. simpl. rewrite in_app_iff.
  intros [H|H]; [auto|]. right. exists a. rewrite K. auto.
Qed.

Lemma recover_log (E A : Type) (m : Run E A) (h : failure -> Run E A)
  (e : E) :
  In e (fst (recover m h)) ->
  In e (fst m) \/ exists err, snd m = inl err /\ In e (fst (h err)).
Proof.
  destruct m as [log [err|a]]; simpl; [|auto].
  destruct (h err) as [log' r] eqn:K. simpl. rewrite in_app_iff.
  intros [H|H]; [auto|]. right. exists err. rewrite K. auto.
Qed.

Lemma upload_log (filePath mimeType : string) (e : WhatsApp.event) :
  In e (fst (WhatsApp._uploadMedia inexactText config postMedia filePath
               mimeType)) ->
  isRequest e = true.
Proof.
  unfold WhatsApp._uploadMedia.
  destruct (negb (WhatsApp.configured config)); [intros []|].
  intros H. apply andThen_log in H. destruct H as [[<-|[]]|[[] [_ H]]];
    [reflexivity|].
  destruct (postMedia _ _ _) as [status d|err]; [|destruct H].
  destruct (negb (status =? 200)%Z); destruct H.
Qed.

Lemma send_log (recipient templateName : string) (params : list string)
  (mediaId : value) (mediaType : option string) (e : WhatsApp.event) :
  In e (fst (WhatsApp._sendTemplateMessage inexactText config postMessage
               recipient templateName params mediaId mediaType)) ->
  isRequest e = true.
Proof.
  unfold WhatsApp._sendTemplateMessage.
  destruct (negb (WhatsApp.configured config)); [intros []|].
  intros H. apply andThen_log in H. destruct H as [H|[cs [_ H]]].
  - destruct (templateName =? "send_plain_text_").
    + destruct params as [|h [|b [|x l]]]; destruct H.
    + destruct (0 <? List.length params)%nat; destruct H.
  - apply recover_log in H. destruct H as [H|[err [_ []]]].
    apply andThen_log in H. destruct H as [[<-|[]]|[[] [_ H]]];
      [reflexivity|].
    destruct (postMessage _ _) as [status d|err]; [|destruct H].
    destruct (status =? 200)%Z; destruct H.
Qed.

(** Every event of a call with the attachment [p] is a request or comes
    from the conversion of [p]. *)
Lemma attachment_log (args : WhatsApp.WhatsAppRequest) (p : string)
  (e : WhatsApp.event) :
  WhatsApp.attachment_path args = Some p ->
  In e (fst (whatsappCommunication args)) ->
  isRequest e = true
  \/ In e (fst (if negb (includes WhatsApp.supported
                           (toLowerCase (extname p)))
                then WhatsApp._convertToPdf readFile streamError p
                       (toLowerCase (extname p))
                else if toLowerCase (extname p) =? ".txt"
                     then WhatsApp._convertTxtToPdf readFile streamError p
                     else done p)).
Proof.
  intros Ha. unfold WhatsApp.whatsappCommunication. intros H.
  apply recover_log in H. destruct H as [H|[err [_ []]]].
  destruct (WhatsApp.blank (WhatsApp.recipient args)); [destruct H|].
  destruct (WhatsApp.blank (WhatsApp.content args)); [destruct H|].
  rewrite Ha in H. apply andThen_log in H.
  destruct H as [H|[[[[template mediaId] mediaType] params] [_ H]]].
  - destruct (negb (p =? "")); [|destruct H].
    apply andThen_log in H. destruct H as [H|[p' [_ H]]]; [now right|].
    apply andThen_log in H. destruct H as [H|[mediaId [_ H]]].
    + left. exact (upload_log _ _ _ H).
    + destruct (prefix "image/" _); destruct H.
  - apply andThen_log in H. destruct H as [H|[result [_ []]]].
    left. exact (send_log _ _ _ _ _ _ H).
Qed.

(** Property X15.  When the attachment has the extension [.html] (in any
    case of letters), the text put into its PDF is the content of the
    file with the tags stripped: it holds no tag, and the PDF is written
    at the path of the attachment with its extension replaced. *)
Theorem html_attachment_is_stripped :
  forall (args : WhatsApp.WhatsAppRequest) (p pdf text : string),
    WhatsApp.attachment_path args = Some p ->
    toLowerCase (extname p) = ".html" ->
    In (WhatsApp.PdfText pdf text) (fst (whatsappCommunication args)) ->
    pdf = pdfPath p
    /\ (exists html, readFile p = inr html /\ text = stripTags html)
    /\ ~ hasTag text.
Proof.
  intros args p pdf text Ha Ext H.
  destruct (attachment_log args p _ Ha H) as [K|K]; [discriminate K|].
  rewrite Ext in K. unfold WhatsApp._convertToPdf in K.
  cbn [includes WhatsApp.supported existsb String.eqb Ascii.eqb Bool.eqb
         orb negb] in K.
  apply writePdf_log in K.
  destruct K as [K | [K | [html [R K]]]]; try discriminate K.
  injection K as -> ->. split; [reflexivity|]. split; [eauto|].
  apply tagFree_hasTag, stripTags_tagFree.
Qed.

End WhatsAppProperties.

(* ================================================================== *)
(** ** Properties of the mail tool *)


Lemma replaceChar_removes (x y : ascii) (s : string) :
  y <> x -> ~ In x (chars (replaceChar x y s)).
Proof.
  intros N. induction s as [|c r IH]; simpl; [tauto|].
  intros [H|H]; [|exact (IH H)].
  destruct (Ascii.eqb_spec c x) as [->|D]; congruence.
Qed.

Lemma replaceChar_keeps_out (x y z : ascii) (s : string) :
  y <> z -> ~ In z (chars s) -> ~ In z (chars (replaceChar x y s)).
Proof.
  intros N. induction s as [|c r IH]; simpl; [tauto|].
  intros K [H|H]; [|apply IH; tauto].
  destruct (Ascii.eqb c x); [congruence | tauto].
Qed.

Lemma replaceChar_length (x y : ascii) (s : string) :
  String.length (replaceChar x y s) = String.length s.
Proof. induction s as [|c r IH]; simpl; congruence. Qed.

Section MailProperties.

Variable inexactText : Z -> string.
Variable config : Mail.oauthConfig.
Variable now : Z.
Variable refreshAccessToken : option failure.
Variable randomSuffix : string.
Variable isAbsolute : string -> bool.
Variable joinWorkspaceRoot : string -> string.
Variable basename : string -> string.
Variable mimeLookup : string -> option string.
Variable readFileBase64 : string -> failure + string.
Variable base64 : string -> string.
Variable gmailSend : string -> failure + value.
Variable recipientTypeError : failure.

Local Abbreviation sendGmail :=
  (Mail.sendGmail inexactText config now refreshAccessToken randomSuffix
     isAbsolute joinWorkspaceRoot basename mimeLookup readFileBase64 base64
     gmailSend recipientTypeError).

Local Abbreviation mailCommunication :=
  (Mail.mailCommunication inexactText config now refreshAccessToken
     randomSuffix isAbsolute joinWorkspaceRoot basename mimeLookup
     readFileBase64 base64 gmailSend recipientTypeError).

Local Abbreviation message :=
  (Mail.message randomSuffix isAbsolute joinWorkspaceRoot basename
     mimeLookup readFileBase64 recipientTypeError).

(** Property X16.  A mail whose subject is missing or made of white space
    only is refused with "Error: Email subject is required"; with a
    subject, one whose content is missing or blank is refused with
    "Error: Email content is required"; with both, one whose recipient
    list is missing or empty is refused with "Error: At least one
    recipient is required".  In the three cases nothing is done: no OAuth
    client, no file read, no mail sent. *)
Theorem invalid_mail_is_refused :
  forall args : Mail.EmailRequest,
    (WhatsApp.blank (Mail.subject args) = true ->
     mailCommunication args
     = ([], inr (TextResult "Error: Email subject is required")))
    /\ (WhatsApp.blank (Mail.subject args) = false ->
        WhatsApp.blank (Mail.content args) = true ->
        mailCommunication args
        = ([], inr (TextResult "Error: Email content is required")))
    /\ (WhatsApp.blank (Mail.subject args) = false ->
        WhatsApp.blank (Mail.content args) = false ->
        Mail.recipient args = None \/ Mail.recipient args = Some [] ->
        mailCommunication args
        = ([], inr (TextResult
                      "Error: At least one recipient is required"))).
Proof.
  intros args. unfold Mail.mailCommunication. repeat split.
  - intros ->. reflexivity.
  - intros -> ->. reflexivity.
  - intros -> -> [-> | ->]; reflexivity.
Qed.

(** [sendGmail] always returns. *)
Lemma sendGmail_returns (emailData : Mail.EmailRequest) :
  exists r, snd (sendGmail emailData) = inr r.
Proof.
  unfold Mail.sendGmail.
  destruct (if (Mail.clientId config =? "") || _ then _ else _)
    as [log [err|r]]; simpl; eauto.
Qed.

(** Property X17.  For a valid mail the answer of the tool is the JSON text
    of the result of [sendGmail], an object with the two strings [status]
    and [output], and the tool has done what [sendGmail] has done; the
    handler "Error sending email" of the tool is never reached. *)
Theorem valid_mail_answer_is_the_send_result :
  forall (args : Mail.EmailRequest),
    WhatsApp.blank (Mail.subject args) = false ->
    WhatsApp.blank (Mail.content args) = false ->
    Mail.present (Mail.recipient args) = true ->
    exists r,
      snd (sendGmail args) = inr r
      /\ mailCommunication args
         = (fst (sendGmail args),
            inr (TextResult (Mail.stringifyResult r)))
      /\ Mail.stringifyResult r
         = "{" ++ jsonString "status" ++ ":" ++ jsonString (Mail.status r)
           ++ "," ++ jsonString "output" ++ ":"
           ++ jsonString (Mail.output r) ++ "}".
Proof.
  intros args S C R. destruct (sendGmail_returns args) as [r E].
  exists r. split; [exact E|]. split; [|reflexivity].
  unfold Mail.mailCommunication. rewrite S, C, R. cbn [negb].
  destruct (sendGmail args) as [log res]. simpl in E. subst res.
  simpl. rewrite app_nil_r. reflexivity.
Qed.

(** Property X18.  Without the client id or the client secret of OAuth,
    [sendGmail] does nothing and reports "Failed to send email: Error:
    OAuth credentials not configured".  With them but without the access
    token or the refresh token, it only builds the OAuth client and
    reports that the Gmail token was not found.  In both cases no file is
    read and no mail is sent. *)
Theorem missing_oauth_settings_send_nothing :
  forall emailData : Mail.EmailRequest,
    (Mail.clientId config = "" \/ Mail.clientSecret config = "" ->
     sendGmail emailData
     = ([], inr {| Mail.status := "failure";
                   Mail.output :=
                     "Failed to send email: "
                     ++ "Error: OAuth credentials not configured" |}))
    /\ (Mail.clientId config <> "" -> Mail.clientSecret config <> "" ->
        Mail.accessToken config = "" \/ Mail.refreshToken config = "" ->
        sendGmail emailData
        = ([Mail.NewOAuth2Client (Mail.clientId config)
              (Mail.clientSecret config)
              (if negb (Mail.redirectUris config =? "")
               then Mail.beforeComma (Mail.redirectUris config) else "")],
           inr {| Mail.status := "failure";
                  Mail.output :=
                    "Failed to send email: Error: Gmail token not found "
                    ++ "in config. Please run OAuth flow first." |})).
Proof.
  intros emailData. unfold Mail.sendGmail. split.
  - intros [-> | ->]; simpl; rewrite ?orb_true_r; reflexivity.
  - intros N1 N2 T. apply String.eqb_neq in N1, N2. rewrite N1, N2.
    destruct T as [-> | ->]; simpl; rewrite ?andb_false_r; reflexivity.
Qed.

(** The events of building the message are reads of attachments. *)
Lemma message_log (emailData : Mail.EmailRequest) (raw : string) :
  ~ In (Mail.Send raw) (fst (message emailData)).
Proof.
  assert (A : forall boundary paths,
             ~ In (Mail.Send raw)
                 (fst (Mail.attachmentsParts isAbsolute joinWorkspaceRoot
                         basename mimeLookup readFileBase64 boundary
                         paths))).
  { intros boundary paths. induction paths as [|p rest IH]; [intros []|].
    cbn [Mail.attachmentsParts]. intros H. apply andThen_log in H.
    destruct H as [H|[parts [_ H]]].
    - unfold Mail.attachmentParts in H. apply andThen_log in H.
      destruct H as [[H|[]]|[[] [_ H]]]; [discriminate H|].
      destruct (readFileBase64 _); destruct H.
    - apply andThen_log in H. destruct H as [H|[more [_ []]]].
      exact (IH H). }
  assert (R : ~ In (Mail.Send raw)
                (fst (Mail.recipients recipientTypeError emailData))).
  { unfold Mail.recipients. destruct (Mail.recipient emailData);
      intros []. }
  unfold Mail.message. destruct (Mail.present _).
  - intros H. apply andThen_log in H. destruct H as [H|[to [_ H]]];
      [exact (R H)|].
    apply andThen_log in H. destruct H as [H|[files [_ []]]].
    exact (A _ _ H).
  - intros H. apply andThen_log in H. destruct H as [H|[to [_ []]]].
    exact (R H).
Qed.

(** Property X19.  What [sendGmail] hands to Gmail is the Base64 text of the
    message with every [+] replaced by [-] and every [/] by [_]: it has
    the length of the Base64 text and holds neither [+] nor [/]. *)
Theorem raw_mail_is_url_safe :
  forall (emailData : Mail.EmailRequest) (raw : string),
    In (Mail.Send raw) (fst (sendGmail emailData)) ->
    ~ In "+"%char (chars raw) /\ ~ In "/"%char (chars raw)
    /\ exists text,
         snd (message emailData) = inr text
         /\ raw = Mail.encode base64 text
         /\ String.length raw = String.length (base64 text).
Proof.
  intros emailData raw H. unfold Mail.sendGmail in H.
  apply recover_log in H. destruct H as [H|[err [_ []]]].
  destruct ((Mail.clientId config =? "") || _); [destruct H|].
  apply andThen_log in H. destruct H as [[H|[]]|[[] [_ H]]];
    [discriminate H|].
  apply andThen_log in H. destruct H as [H|[[] [_ H]]].
  { destruct (_ && _); [destruct H as [H|[]]; discriminate H | destruct H]. }
  apply andThen_log in H. destruct H as [H|[[] [_ H]]].
  { destruct (Mail.expiryDate config) as [expiry|]; [|destruct H].
    destruct (_ && _); [|destruct H].
    apply andThen_log in H. destruct H as [[H|[]]|[[] [_ H]]];
      [discriminate H|].
    destruct refreshAccessToken; destruct H. }
  apply andThen_log in H. destruct H as [H|[text [T H]]];
    [exfalso; exact (message_log _ _ H)|].
  apply andThen_log in H. destruct H as [[H|[]]|[[] [_ H]]].
  - injection H as <-. unfold Mail.encode. split; [|split].
    + apply replaceChar_keeps_out; [discriminate|].
      apply replaceChar_removes. discriminate.
    + apply replaceChar_removes. discriminate.
    + exists text. split; [exact T|]. split; [reflexivity|].
      now rewrite !replaceChar_length.
  - destruct (gmailSend _); destruct H.
Qed.


End MailProperties.

(* ================================================================== *)
(** ** Properties of the fleet and document tools *)

Section FleetProperties.

Variable inexactText : Z -> string.
Variable config : typesenseConfig.
Variable backend : string -> Fleet.searchParameters -> Fleet.reply.
Variable stringify : list (string * value) -> string.

Local Abbreviation getFleetDetails :=
  (Fleet.getFleetDetails inexactText config backend stringify).

(** Property X21.  [getFleetDetails] checks the fleet name before the
    settings of the search service, and both before anything else: a
    missing or empty name is answered with the message that the name is
    required, whatever the settings; a name with a missing setting (host,
    port, protocol or API key) is answered "Error: Typesense credentials
    not configured.".  In both cases no client is built and no search is
    made. *)
Theorem fleet_guards_come_first :
  forall args : Fleet.GetFleetDetailsRequest,
    (Fleet.fleet_name args = None \/ Fleet.fleet_name args = Some "" ->
     getFleetDetails args
     = ([], inr [plainBlock
                   "Error: 'fleetName' parameter is required for fleet details search"]))
    /\ (forall fleetName,
          Fleet.fleet_name args = Some fleetName -> fleetName <> "" ->
          host config = "" \/ port config = None \/ port config = Some 0%Z
          \/ protocol config = "" \/ apiKey config = "" ->
          getFleetDetails args
          = ([], inr [plainBlock
                        "Error: Typesense credentials not configured."])).
Proof.
  intros args. unfold Fleet.getFleetDetails. split.
  - intros [-> | ->]; reflexivity.
  - intros fleetName -> N H. apply String.eqb_neq in N. rewrite N.
    assert (C : Fleet.configured config = false).
    { unfold Fleet.configured.
      destruct H as [H|[H|[H|[H|H]]]]; rewrite H; simpl;
        rewrite ?andb_false_r; reflexivity. }
    rewrite C. reflexivity.
Qed.


End FleetProperties.




Section ParseProperties.

Variable inexactText : Z -> string.
Variable parseToDocumentLink : string -> option string -> Parse.reply.

Local Abbreviation parseDocumentLink :=
  (Parse.parseDocumentLink inexactText parseToDocumentLink).


(** Property X24.  [parseDocumentLink] calls the parsing helper only for a
    link that is present and not empty, and then once; it gives the
    markdown back, titled "Parsed document from ...", only when the
    helper reports success with a markdown that is not empty, and
    answers "Failed to parse document from URL: ..." when either is
    missing. *)
Theorem parsed_document_needs_success_and_text :
  forall args : Parse.ParseDocumentLinkRequest,
    (Parse.document_link args = None \/ Parse.document_link args = Some "" ->
     parseDocumentLink args
     = ([], inr [plainBlock "Error: document_link is required"]))
    /\ (forall documentLink success markdown,
          Parse.document_link args = Some documentLink ->
          documentLink <> "" ->
          parseToDocumentLink documentLink (Parse.parsing_instruction args)
          = Parse.Returns success markdown ->
          parseDocumentLink args
          = ([Parse.ParseToDocumentLink documentLink
                (Parse.parsing_instruction args)],
             inr [match success, markdown with
                  | true, Some (String c text) =>
                      {| blockText := String c text;
                         blockTitle := Some ("Parsed document from "
                                             ++ documentLink);
                         blockFormat := Some "markdown" |}
                  | _, _ =>
                      {| blockText := "Failed to parse document from URL: "
                                      ++ documentLink;
                         blockTitle := Some "Document Parsing Error";
                         blockFormat := None |}
                  end])).
Proof.
  intros args. unfold Parse.parseDocumentLink. split.
  - intros [-> | ->]; reflexivity.
  - intros documentLink success markdown -> N T.
    apply String.eqb_neq in N. rewrite N. simpl. rewrite T.
    destruct success, markdown as [[|c text]|]; reflexivity.
Qed.

End ParseProperties.

(* ================================================================== *)
(** ** Worked examples of the other tools *)

Example sanitize_samples :
  sanitizeWhatsAppText ("  <p>Hello   <b>world</b></p>" ++ nl ++ " bye ")
  = "Hello world bye"
  /\ sanitizeWhatsAppText "1 < 2 and 3 > 2" = "1 2"
  /\ sanitizeWhatsAppText "a <> b" = "a <> b"
  /\ sanitizeWhatsAppText "<br/>" = "".
Proof. repeat split; vm_compute; reflexivity. Qed.

Example whatsapp_photo_is_sent :
  WhatsApp.whatsappCommunication sampleInexactText Samples.whatsapp
    Samples.extname Samples.mimeLookup Samples.readFile
    Samples.streamError Samples.postMedia Samples.postMessage
    Samples.photoMessage
  = ([WhatsApp.PostMedia "https://wa.example.org/media" "photo.png"
        "image/png" "secret";
      WhatsApp.PostMessage "https://wa.example.org/messages" "secret"
        {| WhatsApp.to := "4915100000";
           WhatsApp.templateName := "send_image_file_";
           WhatsApp.languageCode := "en";
           WhatsApp.components :=
             [WhatsApp.Header
                [WhatsApp.MediaParameter "image" (VStr "media-1")];
              WhatsApp.Body [WhatsApp.TextParameter "Arrived at berth"]] |}],
     inr (TextResult
            ("WhatsApp message sent successfully: "
             ++ "Template 'send_image_file_' sent to 4915100000."))).
Proof. vm_compute. reflexivity. Qed.

Example mail_is_assembled :
  Mail.message "x1" (fun _ => true) (fun p => p) (fun p => p)
    Samples.mimeLookup (fun _ => inr "AAAA") Samples.typeError Samples.mail
  = ([], inr ("Content-Type: text/html; charset=utf-8" ++ nl
              ++ "MIME-Version: 1.0" ++ nl
              ++ "To: master@example.org" ++ nl
              ++ "Subject: ETA" ++ nl
              ++ nl
              ++ "<p>Arrival tomorrow</p>")).
Proof. vm_compute. reflexivity. Qed.

(* ------------------------------------------------------------------ *)
(** *** Instances of the properties *)

Lemma sanitized_text_has_no_break_witness :
  In "H"%char (chars (sanitizeWhatsAppText "<b>Hi</b>"))
  /\ code "H" <> 9 /\ code "H" <> 10.
Proof.
  assert (H : In "H"%char (chars (sanitizeWhatsAppText "<b>Hi</b>")))
    by (vm_compute; left; reflexivity).
  exact (conj H (sanitized_text_has_no_break "<b>Hi</b>" "H" H)).
Defined.

Lemma pdfPath_replaces_last_extension_witness :
  "txt" <> "" /\ hasDot "txt" = false
  /\ pdfPath "report.final.txt" = "report.final.pdf".
Proof.
  assert (N : "txt" <> "") by discriminate.
  assert (D : hasDot "txt" = false) by reflexivity.
  split; [exact N|]. split; [exact D|].
  exact (proj1 (pdfPath_replaces_last_extension "report.final" "txt" N D)).
Defined.

Lemma accepted_component_id_is_its_key_witness :
  componentIdMatch "12_3_9876543" = Some ("12", "3", "9876543")
  /\ componentNo ("12", "3", "9876543") = "12_3_9876543".
Proof.
  assert (M : componentIdMatch "12_3_9876543" = Some ("12", "3", "9876543"))
    by reflexivity.
  split; [exact M|].
  exact (proj1 (accepted_component_id_is_its_key _ _ M)).
Defined.

Lemma well_formed_component_id_is_accepted_witness :
  digitString "12" = true /\ digitString "3" = true
  /\ digitString "9876543" = true
  /\ componentIdMatch "12_3_9876543" = Some ("12", "3", "9876543").
Proof.
  assert (A : digitString "12" = true) by reflexivity.
  assert (B : digitString "3" = true) by reflexivity.
  assert (C : digitString "9876543" = true) by reflexivity.
  split; [exact A|]. split; [exact B|]. split; [exact C|].
  exact (proj1 (well_formed_component_id_is_accepted _ _ _ A B C)).
Defined.

Lemma plain_message_is_one_template_post_witness :
  WhatsApp.configured Samples.whatsapp = true
  /\ WhatsApp.whatsappCommunication sampleInexactText Samples.whatsapp
       Samples.extname Samples.mimeLookup Samples.readFile
       Samples.streamError Samples.postMedia Samples.postMessage
       Samples.plainMessage
     = ([WhatsApp.PostMessage "https://wa.example.org/messages" "secret"
           {| WhatsApp.to := "4915100000";
              WhatsApp.templateName := "send_plain_text_";
              WhatsApp.languageCode := "en";
              WhatsApp.components :=
                [WhatsApp.Header
                   [WhatsApp.TextParameter "Automated response"];
                 WhatsApp.Body
                   [WhatsApp.TextParameter "Arrived at berth"]] |}],
        inr (TextResult
               ("WhatsApp message sent successfully: "
                ++ "Template 'send_plain_text_' sent to 4915100000."))).
Proof.
  assert (C : WhatsApp.configured Samples.whatsapp = true) by reflexivity.
  split; [exact C|].
  exact (plain_message_is_one_template_post sampleInexactText
           Samples.whatsapp Samples.extname Samples.mimeLookup
           Samples.readFile Samples.streamError Samples.postMedia
           Samples.postMessage Samples.plainMessage "4915100000"
           "Arrived at berth" eq_refl eq_refl eq_refl eq_refl
           (or_introl eq_refl) C).
Defined.

Lemma no_request_without_whatsapp_configuration_witness :
  WhatsApp.configured Samples.noWhatsapp = false
  /\ WhatsApp.whatsappCommunication sampleInexactText Samples.noWhatsapp
       Samples.extname Samples.mimeLookup Samples.readFile
       Samples.streamError Samples.postMedia Samples.postMessage
       Samples.plainMessage
     = ([], inr (TextResult
                   ("Failed to send WhatsApp message: "
                    ++ "Error: WhatsApp URL or token not configured"))).
Proof.
  assert (C : WhatsApp.configured Samples.noWhatsapp = false)
    by reflexivity.
  split; [exact C|].
  exact (proj2 (proj2
           (no_request_without_whatsapp_configuration sampleInexactText
              Samples.noWhatsapp Samples.extname Samples.mimeLookup
              Samples.readFile Samples.streamError Samples.postMedia
              Samples.postMessage Samples.plainMessage C))
           eq_refl eq_refl eq_refl).
Defined.

Lemma attachment_is_uploaded_then_sent_witness :
  includes WhatsApp.supported (toLowerCase (Samples.extname "photo.png"))
  = true
  /\ List.length
       (fst (WhatsApp.whatsappCommunication sampleInexactText
               Samples.whatsapp Samples.extname Samples.mimeLookup
               Samples.readFile Samples.streamError Samples.postMedia
               Samples.postMessage Samples.photoMessage))
     = 2%nat.
Proof.
  assert (S : includes WhatsApp.supported
                (toLowerCase (Samples.extname "photo.png")) = true)
    by reflexivity.
  split; [exact S|].
  rewrite (attachment_is_uploaded_then_sent sampleInexactText
             Samples.whatsapp Samples.extname Samples.mimeLookup
             Samples.readFile Samples.streamError Samples.postMedia
             Samples.postMessage Samples.photoMessage "4915100000"
             "Arrived at berth" "photo.png" Samples.uploaded
             eq_refl eq_refl eq_refl eq_refl eq_refl
             ltac:(discriminate) S ltac:(discriminate) eq_refl eq_refl).
  reflexivity.
Defined.

Lemma html_attachment_is_stripped_witness :
  toLowerCase (Samples.extname "page.HTML") = ".html"
  /\ In (WhatsApp.PdfText "page.pdf" "Hello crew")
       (fst (WhatsApp.whatsappCommunication sampleInexactText
               Samples.whatsapp Samples.extname Samples.mimeLookup
               Samples.readFile Samples.streamError Samples.postMedia
               Samples.postMessage Samples.pageMessage))
  /\ ~ hasTag "Hello crew".
Proof.
  assert (E : toLowerCase (Samples.extname "page.HTML") = ".html")
    by reflexivity.
  assert (I : In (WhatsApp.PdfText "page.pdf" "Hello crew")
                (fst (WhatsApp.whatsappCommunication sampleInexactText
                        Samples.whatsapp Samples.extname
                        Samples.mimeLookup Samples.readFile
                        Samples.streamError Samples.postMedia
                        Samples.postMessage Samples.pageMessage)))
    by (vm_compute; right; right; left; reflexivity).
  split; [exact E|]. split; [exact I|].
  exact (proj2 (proj2
           (html_attachment_is_stripped sampleInexactText Samples.whatsapp
              Samples.extname Samples.mimeLookup Samples.readFile
              Samples.streamError Samples.postMedia Samples.postMessage
              Samples.pageMessage "page.HTML" "page.pdf" "Hello crew"
              eq_refl E I))).
Defined.

Lemma valid_mail_answer_is_the_send_result_witness :
  WhatsApp.blank (Mail.subject Samples.mail) = false
  /\ WhatsApp.blank (Mail.content Samples.mail) = false
  /\ Mail.present (Mail.recipient Samples.mail) = true
  /\ exists r,
       snd (Mail.mailCommunication sampleInexactText Samples.oauth 0%Z None
              "x1" (fun _ => true) (fun p => p) (fun p => p)
              Samples.mimeLookup (fun _ => inr "AAAA") Samples.base64
              Samples.gmailSend Samples.typeError Samples.mail)
       = inr (TextResult (Mail.stringifyResult r)).
Proof.
  assert (S : WhatsApp.blank (Mail.subject Samples.mail) = false)
    by reflexivity.
  assert (C : WhatsApp.blank (Mail.content Samples.mail) = false)
    by reflexivity.
  assert (R : Mail.present (Mail.recipient Samples.mail) = true)
    by reflexivity.
  split; [exact S|]. split; [exact C|]. split; [exact R|].
  destruct (valid_mail_answer_is_the_send_result sampleInexactText
              Samples.oauth 0%Z None "x1" (fun _ => true) (fun p => p)
              (fun p => p) Samples.mimeLookup (fun _ => inr "AAAA")
              Samples.base64 Samples.gmailSend Samples.typeError
              Samples.mail S C R) as [r [_ [E _]]].
  exists r. rewrite E. reflexivity.
Defined.

Lemma raw_mail_is_url_safe_witness :
  In (Mail.Send "QUJD-_8=")
     (fst (Mail.sendGmail sampleInexactText Samples.oauth 0%Z None "x1"
             (fun _ => true) (fun p => p) (fun p => p) Samples.mimeLookup
             (fun _ => inr "AAAA") Samples.base64 Samples.gmailSend
             Samples.typeError Samples.mail))
  /\ ~ In "+"%char (chars "QUJD-_8=")
  /\ ~ In "/"%char (chars "QUJD-_8=").
Proof.
  assert (I : In (Mail.Send "QUJD-_8=")
                (fst (Mail.sendGmail sampleInexactText Samples.oauth 0%Z
                        None "x1" (fun _ => true) (fun p => p)
                        (fun p => p) Samples.mimeLookup
                        (fun _ => inr "AAAA") Samples.base64
                        Samples.gmailSend Samples.typeError Samples.mail)))
    by (vm_compute; right; right; left; reflexivity).
  split; [exact I|].
  destruct (raw_mail_is_url_safe sampleInexactText Samples.oauth 0%Z None
              "x1" (fun _ => true) (fun p => p) (fun p => p)
              Samples.mimeLookup (fun _ => inr "AAAA") Samples.base64
              Samples.gmailSend Samples.typeError Samples.mail _ I)
    as [P [Q _]].
  exact (conj P Q).
Defined.



(* ================================================================== *)
(** ** Further properties of the vessel lookup *)

Section LookupEdges.

Variable inexactText : Z -> string.
Variable config : typesenseConfig.
Variable backend : searchParameters -> reply.

Local Abbreviation answer := (lookup inexactText config backend).

(** Property X25.  The lookup answers "Error: Please provide at least one
    of name_query, vessel_query, or email_query." and does nothing else
    exactly when its three slots are all [undefined] or [null], whatever
    the settings of the search service. *)
Theorem no_query_is_refused :
  forall (perPage : Z) (args : request),
    (provided (name_query args) = false
     /\ provided (vessel_query args) = false
     /\ provided (email_query args) = false)
    <->
    answer perPage args
    = ([], TextResult
             "Error: Please provide at least one of name_query, vessel_query, or email_query.").
Proof.
  intros perPage args. split.
  - intros [N [V E]]. unfold lookup, activeQueries. simpl.
    rewrite N, V, E. reflexivity.
  - intros H.
    assert (A : activeQueries args = []).
    { destruct (activeQueries args) as [|kv rest] eqn:A; [reflexivity|].
      exfalso.
      assert (N : activeQueries args <> []) by (rewrite A; discriminate).
      destruct (credentialsConfigured config) eqn:C.
      - pose proof (lookup_searches inexactText config backend perPage
                      args N C) as L.
        cbv zeta in L. rewrite L in H.
        destruct (backend _) as [r|e]; [|discriminate H].
        destruct (List.length (hitsOf r) =? 0)%nat; [|discriminate H].
        destruct (backend _); discriminate H.
      - unfold lookup in H. rewrite A, C in H. simpl in H.
        inversion H. }
    unfold activeQueries in A. simpl in A.
    destruct (provided (name_query args)); [discriminate A|].
    destruct (provided (vessel_query args)); [discriminate A|].
    destruct (provided (email_query args)); [discriminate A|].
    repeat split.
Qed.

(** Property X26.  A search that throws ends the call with the message of
    the error as the answer: after a failure of the exact search no fuzzy
    search is made, and after a failure of the fuzzy search nothing more
    is done.  An error that carries a list of errors is reported with its
    own message followed by those of the list, joined by "; ", an entry
    without message being given by its text. *)
Theorem failing_search_ends_the_call :
  forall (perPage : Z) (args : request),
    activeQueries args <> [] ->
    credentialsConfigured config = true ->
    let active := activeQueries args in
    let client := NewClient (host config) (port config) (protocol config)
                    (apiKey config) in
    let exact := exactParameters inexactText perPage active in
    let fuzzy := fuzzyParameters inexactText active in
    (forall e, backend exact = Throws e ->
       answer perPage args
       = ([client; Search "fleet-vessel-lookup" exact],
          TextResult (errorMessage e)))
    /\ (forall r e, backend exact = Returns r -> hitsOf r = [] ->
          backend fuzzy = Throws e ->
          answer perPage args
          = ([client; Search "fleet-vessel-lookup" exact;
              Search "fleet-vessel-lookup" fuzzy],
             TextResult (errorMessage e)))
    /\ (forall m first rest,
          errorMessage (ErrorObject m (Some (first :: rest)))
          = "An aggregate error occurred: " ++ m
            ++ ". Individual errors: "
            ++ join "; " (map (fun sub => if fst sub =? "" then snd sub
                                          else fst sub) (first :: rest)))
    /\ (forall m, errorMessage (ErrorObject m None)
                  = "An error occurred: " ++ m).
Proof.
  intros perPage args A C active client exact fuzzy.
  pose proof (lookup_searches inexactText config backend perPage args A C)
    as L. cbv zeta in L. fold active client exact fuzzy in L.
  split; [|split; [|split]].
  - intros e E. rewrite L, E. reflexivity.
  - intros r e E Z0 F. rewrite L, E, F.
    apply length_zero_iff in Z0. rewrite Z0. reflexivity.
  - intros m first rest. unfold errorMessage. do 3 f_equal.
    f_equal. apply map_ext. intros [a b]. unfold subErrorText. simpl.
    destruct (a =? ""); reflexivity.
  - reflexivity.
Qed.

(** Property X27.  A slot that holds a value other than a string (a number
    sent for an IMO, say) is active but contributes no group: when no
    active slot holds a string, the exact search is made with an empty
    filter, and the value still enters the fuzzy query as text. *)
Theorem non_string_slots_give_an_empty_filter :
  forall args : request,
    Forall (fun kv => isString (snd kv) = false) (activeQueries args) ->
    filterQuery inexactText (activeQueries args) = ""
    /\ filter_by (exactParameters inexactText 250 (activeQueries args))
       = Some ""
    /\ activeQueries numberAsVesselQuery = [("vessel", VNum 9876543)]
    /\ fuzzyQ inexactText (activeQueries numberAsVesselQuery) = "9876543".
Proof.
  intros args F.
  assert (E : combinedFilterParts inexactText (activeQueries args) = []).
  { unfold combinedFilterParts.
    induction (activeQueries args) as [|[k v] rest IH]; [reflexivity|].
    inversion F as [|? ? F1 F2]; subst. simpl. rewrite (IH F2).
    destruct v; try discriminate F1; reflexivity. }
  unfold exactParameters, filterQuery. rewrite E. repeat split.
Qed.

End LookupEdges.

Lemma failing_search_ends_the_call_witness :
  activeQueries everGivenQuery <> []
  /\ credentialsConfigured sampleConfig = true
  /\ snd (get_vessel_personnel_info sampleInexactText sampleConfig
            failingSearch everGivenQuery)
     = TextResult ("An aggregate error occurred: all nodes failed. "
                   ++ "Individual errors: timeout; ECONNREFUSED").
Proof.
  assert (A : activeQueries everGivenQuery <> []) by discriminate.
  assert (C : credentialsConfigured sampleConfig = true) by reflexivity.
  split; [exact A|]. split; [exact C|].
  unfold get_vessel_personnel_info.
  rewrite (proj1 (failing_search_ends_the_call sampleInexactText
                    sampleConfig failingSearch 250 everGivenQuery A C)
             _ eq_refl).
  reflexivity.
Defined.

Lemma non_string_slots_give_an_empty_filter_witness :
  Forall (fun kv => isString (snd kv) = false)
    (activeQueries numberAsVesselQuery)
  /\ filter_by (exactParameters sampleInexactText 250
                  (activeQueries numberAsVesselQuery)) = Some "".
Proof.
  assert (F : Forall (fun kv => isString (snd kv) = false)
                (activeQueries numberAsVesselQuery))
    by (repeat constructor).
  split; [exact F|].
  exact (proj1 (proj2 (non_string_slots_give_an_empty_filter
                         sampleInexactText numberAsVesselQuery F))).
Defined.
